(** * TachikawaApp: the list editor and registration form of [App.py]

    A shallow embedding of the table code of [main] in [src/App.py]:

    - the load of the sheet into a data frame (lines 85-96),
    - the editable, optionally filtered copy of it (lines 159-166),
    - the save button, which overwrites the whole sheet (lines 197-237),
    - the registration form, which looks the address up and appends one
      row (lines 266-325).

    Python values are the constructors of [cell]; a pandas data frame is a
    list of column labels and a list of rows; the sheet, the messages put
    on the page and the queries sent to the geocoder are the fields of a
    [World] threaded through a small state-and-exception monad. *)

From Stdlib Require Import String Ascii List ZArith Bool Lia.
From Stdlib Require Import Floats.PrimFloat.
From Stdlib Require Import DecimalString.
Import ListNotations.
Open Scope string_scope.
Open Scope list_scope.

(* ===================================================================== *)
(** * Part I: the program *)
(* ===================================================================== *)

(* ===================================================================== *)
(** ** Python values *)
(* ===================================================================== *)

(** What a cell of the sheet, of a data frame or of an appended row can
    hold: [str], [int], [float] (NaN included), [bool] and [None]. *)
Inductive cell : Type :=
| CStr (s : string)
| CInt (z : Z)
| CFloat (f : float)
| CBool (b : bool)
| CNone.

(** [float('nan')], the marker pandas puts where a value is missing. *)
Definition NaN : cell := CFloat nan.

(** Truth value of a string: [if s:]. *)
Definition str_truthy (s : string) : bool :=
  match s with
  | EmptyString => false
  | String _ _ => true
  end.

(** Truth value of a Python value: [if v:].  A float is false when it is
    zero (of either sign); NaN is true. *)
Definition truthy (v : cell) : bool :=
  match v with
  | CStr s => str_truthy s
  | CInt z => negb (z =? 0)%Z
  | CFloat f => negb (PrimFloat.eqb f 0%float)
  | CBool b => b
  | CNone => false
  end.

(** [sub in s] on strings. *)
Fixpoint str_in (sub s : string) : bool :=
  if prefix sub s then true
  else match s with
       | EmptyString => false
       | String _ s' => str_in sub s'
       end.

(** [x in xs] on a list of labels. *)
Definition label_in (x : string) (xs : list string) : bool :=
  existsb (String.eqb x) xs.

(** [pd.isna]: [None] and NaN are the missing values. *)
Definition isna (v : cell) : bool :=
  match v with
  | CNone => true
  | CFloat f => is_nan f
  | _ => false
  end.

(** A record of [get_all_records]: a [dict] from header label to value,
    in insertion order.  [dict_get] is [d.get(k)]. *)
Definition record : Type := list (string * cell).

Fixpoint dict_get (d : record) (k : string) : option cell :=
  match d with
  | [] => None
  | (k', v) :: d' => if String.eqb k k' then Some v else dict_get d' k
  end.

(* ===================================================================== *)
(** ** Data frames *)
(* ===================================================================== *)

(** A data frame: the column labels and, row after row, one cell per
    column.  The row index is not kept: the editor hides it and the write
    ([values.tolist()]) drops it.  Cells keep the Python value they were
    given; pandas' unification of numeric dtypes within a column is not
    represented (in a column that mixes whole numbers with floats or
    missing values pandas holds the whole numbers as floats).  What is
    stated of the cells of a loaded table is therefore stated of its
    strings and of which cells are missing, not of the value of a
    number. *)
Record DataFrame : Type := mkDF {
  columns : list string;
  rows : list (list cell)
}.

(** Every row has one cell per column. *)
Definition aligned (df : DataFrame) : Prop :=
  Forall (fun r => length r = length (columns df)) (rows df).

(** [columns.get_loc(c)]: the position of label [c]. *)
Fixpoint get_loc (c : string) (cols : list string) : option nat :=
  match cols with
  | [] => None
  | c' :: cols' =>
      if String.eqb c c' then Some 0
      else option_map S (get_loc c cols')
  end.

(** The cell of row [r] under label [c]; NaN when the frame has no such
    column. *)
Definition cell_at (cols : list string) (r : list cell) (c : string) : cell :=
  match get_loc c cols with
  | Some i => nth i r NaN
  | None => NaN
  end.

(** The labels of a list of records, each once, in the order they first
    appear. *)
Fixpoint union_keys (seen : list string) (data : list record) : list string :=
  match data with
  | [] => seen
  | d :: data' =>
      union_keys
        (fold_left (fun acc kv => if label_in (fst kv) acc then acc
                                  else acc ++ [fst kv]) d seen)
        data'
  end.

(** [pd.DataFrame(data)] on a list of records: a record without a label
    gets NaN in that column.  (Every other cell is the record's value as
    it is: see the note on numbers above.) *)
Definition DataFrame_of_records (data : list record) : DataFrame :=
  let cols := union_keys [] data in
  mkDF cols
       (map (fun d => map (fun c => match dict_get d c with
                                    | Some v => v
                                    | None => NaN
                                    end) cols) data).

(** [df.empty]: some axis has length zero. *)
Definition df_empty (df : DataFrame) : bool :=
  match columns df, rows df with
  | [], _ => true
  | _, [] => true
  | _, _ => false
  end.

(** [df[col] = v] for a scalar [v]: a new column at the end, or the
    existing column overwritten. *)
Definition replace_nth {A} (i : nat) (v : A) (l : list A) : list A :=
  firstn i l ++ match skipn i l with
                | [] => []
                | _ :: tl => v :: tl
                end.

Definition df_setitem (col : string) (v : cell) (df : DataFrame) : DataFrame :=
  match get_loc col (columns df) with
  | Some i => mkDF (columns df) (map (replace_nth i v) (rows df))
  | None => mkDF (columns df ++ [col]) (map (fun r => r ++ [v]) (rows df))
  end.

(** [df.reindex(columns=new_cols)]: the columns of [new_cols], in that
    order; a label the frame lacks gives a column of NaN, a column of the
    frame that is not listed is dropped. *)
Definition reindex (new_cols : list string) (df : DataFrame) : DataFrame :=
  mkDF new_cols
       (map (fun r => map (cell_at (columns df) r) new_cols) (rows df)).

(** [df.fillna(v)]. *)
Definition fillna_cell (v c : cell) : cell := if isna c then v else c.

Definition fillna (v : cell) (df : DataFrame) : DataFrame :=
  mkDF (columns df) (map (map (fillna_cell v)) (rows df)).

(* ===================================================================== *)
(** ** Loading the sheet (lines 85-96) *)
(* ===================================================================== *)

(** Line 89. *)
Definition expected_columns : list string :=
  ["店名"; "ジャンル"; "エリア"; "評価"; "メモ"; "住所"; "登録日"; "緯度"; "経度"].

(** Lines 94-96: [for col in ...: if col not in df.columns: df[col] = None]. *)
Definition ensure_columns (cols : list string) (df : DataFrame) : DataFrame :=
  fold_left (fun df col => if label_in col (columns df) then df
                           else df_setitem col CNone df) cols df.

(** Lines 86-96, from [data = sheet.get_all_records()]. *)
Definition load_data (data : list record) : DataFrame :=
  let df := DataFrame_of_records data in
  let df := if df_empty df then mkDF expected_columns [] else df in
  ensure_columns ["緯度"; "経度"; "住所"] df.

(* ===================================================================== *)
(** ** Effects: the sheet, the page and the geocoder *)
(* ===================================================================== *)

(** What [st.warning], [st.error], [st.success] and [st.balloons] put on
    the page. *)
Inductive ui_event : Type :=
| Warning (msg : string)
| Error (msg : string)
| Success (msg : string)
| Balloons.

(** The calls made on the sheet. *)
Inductive sheet_call : Type :=
| Clear
| Update (values : list (list cell))
| AppendRow (values : list cell).

(** The part of the outside world the handlers act on: the cells of the
    sheet, the calls made on the sheet so far, the messages shown so far
    and the queries sent to the geocoder so far (oldest first).  A call on
    the sheet is taken to go through: the failures of the transport are
    not represented. *)
Record World : Type := mkWorld {
  sheet : list (list cell);
  sheet_calls : list sheet_call;
  page : list ui_event;
  geo_queries : list string
}.

(** What a statement can raise.  [Exception e] stands for any instance of
    Python's [Exception], [e] being its [str]; [RerunException] is what
    [st.rerun()] raises to restart the script: it is not an [Exception],
    so [except Exception] lets it through. *)
Inductive exn : Type :=
| Exception (e : string)
| RerunException.

Inductive outcome (A : Type) : Type :=
| Returned (a : A)
| Raised (e : exn).
Arguments Returned {A} a.
Arguments Raised {A} e.

(** A computation acts on the world and returns or raises; what it did to
    the world before raising stays done. *)
Definition M (A : Type) : Type := World -> outcome A * World.

Definition ret {A} (a : A) : M A := fun w => (Returned a, w).

Definition bind {A B} (c : M A) (k : A -> M B) : M B :=
  fun w => match c w with
           | (Returned a, w') => k a w'
           | (Raised e, w') => (Raised e, w')
           end.

Definition raise {A} (e : exn) : M A := fun w => (Raised e, w).

Definition lift {A} (o : outcome A) : M A := fun w => (o, w).

(** [try: body  except Exception as e: handler(e)]. *)
Definition try_except {A} (body : M A) (handler : string -> M A) : M A :=
  fun w => match body w with
           | (Raised (Exception e), w') => handler e w'
           | r => r
           end.

Declare Scope py_scope.
Delimit Scope py_scope with py.
Notation "x <- c ;; k" := (bind c (fun x => k))
  (at level 61, c at next level, right associativity) : py_scope.
Notation "c ;; k" := (bind c (fun _ => k))
  (at level 61, right associativity) : py_scope.
Open Scope py_scope.

Definition show (ev : ui_event) : M unit :=
  fun w => (Returned tt,
            mkWorld (sheet w) (sheet_calls w) (page w ++ [ev]) (geo_queries w)).

Definition st_warning (msg : string) : M unit := show (Warning msg).
Definition st_error (msg : string) : M unit := show (Error msg).
Definition st_success (msg : string) : M unit := show (Success msg).
Definition st_balloons : M unit := show Balloons.
Definition st_rerun : M unit := raise RerunException.

(** [sheet.clear()]. *)
Definition sheet_clear : M unit :=
  fun w => (Returned tt,
            mkWorld [] (sheet_calls w ++ [Clear]) (page w) (geo_queries w)).

(** Writing a block of values from cell A1: the cells it covers are
    replaced, the others stay. *)
Fixpoint overlay_row (new old : list cell) : list cell :=
  match new, old with
  | [], _ => old
  | c :: new', [] => c :: new'
  | c :: new', _ :: old' => c :: overlay_row new' old'
  end.

Fixpoint overlay (values old : list (list cell)) : list (list cell) :=
  match values, old with
  | [], _ => old
  | v :: values', [] => v :: values'
  | v :: values', o :: old' => overlay_row v o :: overlay values' old'
  end.

(** [sheet.update(range_name="A1", values=values)]. *)
Definition sheet_update (values : list (list cell)) : M unit :=
  fun w => (Returned tt,
            mkWorld (overlay values (sheet w))
                    (sheet_calls w ++ [Update values]) (page w) (geo_queries w)).

(** [sheet.append_row(values)]: one more row under the last one. *)
Definition sheet_append_row (values : list cell) : M unit :=
  fun w => (Returned tt,
            mkWorld (sheet w ++ [values])
                    (sheet_calls w ++ [AppendRow values]) (page w)
                    (geo_queries w)).

(* ===================================================================== *)
(** ** The editable copy of the table (lines 159-166) *)
(* ===================================================================== *)

Definition insert_nth {A} (i : nat) (x : A) (l : list A) : list A :=
  firstn i l ++ x :: skipn i l.

Definition remove_nth {A} (i : nat) (l : list A) : list A :=
  firstn i l ++ skipn (S i) l.

(** [df.insert(loc, col, v)] for a scalar [v]; raises when the frame
    already has a column [col]. *)
Definition df_insert (loc : nat) (col : string) (v : cell) (df : DataFrame)
  : outcome DataFrame :=
  if label_in col (columns df)
  then Raised (Exception ("cannot insert " ++ col ++ ", already exists"))
  else Returned (mkDF (insert_nth loc col (columns df))
                      (map (insert_nth loc v) (rows df))).

Section Filter.

(** [repr] of a float, and the compilation of a search pattern into a
    case-insensitive matcher ([None]: the pattern does not compile);
    both belong to Python's libraries. *)
Variable float_repr : float -> string.
Variable re_compile_ignorecase : string -> option (string -> bool).

(** [str(v)], as [astype(str)] applies it to every cell. *)
Definition py_str (v : cell) : string :=
  match v with
  | CStr s => s
  | CInt z => NilZero.string_of_int (Z.to_int z)
  | CFloat f => float_repr f
  | CBool true => "True"
  | CBool false => "False"
  | CNone => "None"
  end.

(** Lines 159-166: the copy with the deletion column in front, cut down
    to the rows one of whose cells matches the search words. *)
Definition make_edit_df (df : DataFrame) (search_query : string)
  : outcome DataFrame :=
  match df_insert 0 "削除" (CBool false) df with
  | Raised e => Raised e
  | Returned edit_df =>
      if str_truthy search_query then
        match re_compile_ignorecase search_query with
        | None => Raised (Exception "re.error")
        | Some contains =>
            Returned
              (mkDF (columns edit_df)
                    (filter (fun r => existsb (fun c => contains (py_str c)) r)
                            (rows edit_df)))
        end
      else Returned edit_df
  end.

End Filter.

Definition is_bool (v : cell) : bool :=
  match v with CBool _ => true | _ => false end.

Fixpoint labels_eqb (xs ys : list string) : bool :=
  match xs, ys with
  | [], [] => true
  | x :: xs', y :: ys' => String.eqb x y && labels_eqb xs' ys'
  | _, _ => false
  end.

(** What [st.data_editor] with [num_rows="fixed"] and a checkbox column
    (lines 169-194) can hand back for [edit_df]: the same columns, as
    many rows, one cell per column, a boolean in the deletion column.
    The other cells are whatever the user left or typed. *)
Definition data_editor_returns (edit_df edited_df : DataFrame) : bool :=
  labels_eqb (columns edit_df) (columns edited_df)
  && (length (rows edit_df) =? length (rows edited_df))%nat
  && forallb (fun r => (length r =? length (columns edited_df))%nat
                       && is_bool (cell_at (columns edited_df) r "削除"))
             (rows edited_df).

(* ===================================================================== *)
(** ** The save button (lines 197-237) *)
(* ===================================================================== *)

(** [~df[col]]: the negated boolean column. *)
Fixpoint invert_all (vs : list cell) : outcome (list bool) :=
  match vs with
  | [] => Returned []
  | CBool b :: vs' =>
      match invert_all vs' with
      | Returned bs => Returned (negb b :: bs)
      | Raised e => Raised e
      end
  | _ :: _ => Raised (Exception "bad operand type for unary ~")
  end.

Definition invert_column (col : string) (df : DataFrame) : outcome (list bool) :=
  match get_loc col (columns df) with
  | None => Raised (Exception ("KeyError: " ++ col))
  | Some i => invert_all (map (fun r => nth i r NaN) (rows df))
  end.

(** [df[mask]]: the rows whose entry in the mask is true. *)
Definition boolean_index (mask : list bool) (df : DataFrame) : DataFrame :=
  mkDF (columns df)
       (map snd (filter (fun br : bool * list cell => fst br)
                        (combine mask (rows df)))).

(** [df.drop(columns=[col])]. *)
Definition drop_column (col : string) (df : DataFrame) : outcome DataFrame :=
  match get_loc col (columns df) with
  | None => Raised (Exception ("KeyError: " ++ col))
  | Some i => Returned (mkDF (remove_nth i (columns df))
                             (map (remove_nth i) (rows df)))
  end.

(** Line 200: [edited_df[~edited_df["削除"]].drop(columns=["削除"])]. *)
Definition save_df_of (edited_df : DataFrame) : outcome DataFrame :=
  match invert_column "削除" edited_df with
  | Raised e => Raised e
  | Returned mask => drop_column "削除" (boolean_index mask edited_df)
  end.

(** Lines 220-227: the columns put in the order of [expected_columns],
    the missing values blanked, the header row put on top. *)
Definition update_values_of (save_df : DataFrame) : list (list cell) :=
  let final_save_df := reindex expected_columns save_df in
  let final_save_df := fillna (CStr "") final_save_df in
  map CStr (columns final_save_df) :: rows final_save_df.

Definition filter_active_message : string :=
  "⚠️ 検索絞り込み中は保存できません。検索ワードを空にして全件表示してから編集・保存してください。".

Definition saved_message : string := "✅ 変更を保存しました！".

(** Lines 198-237, run when the save button is pressed.  ([st.spinner]
    and [time.sleep] leave the world as it is.) *)
Definition save_changes (search_query : string) (edited_df : DataFrame) : M unit :=
  try_except
    (save_df <- lift (save_df_of edited_df) ;;
     if str_truthy search_query then
       st_warning filter_active_message
     else
       let update_values := update_values_of save_df in
       sheet_clear ;;
       sheet_update update_values ;;
       st_success saved_message ;;
       st_rerun)
    (fun e => st_error ("保存エラー: " ++ e)).

(** The rules the editor is configured with (lines 174-193): the name is
    required, genre and area are picked from their lists, the rating is a
    whole number from 1 to 5. *)
Definition genre_options : list string :=
  ["和食"; "洋食"; "中華"; "イタリアン"; "ラーメン"; "カフェ"; "居酒屋"; "その他"].

Definition area_options : list string :=
  ["北口"; "南口"; "グリーンスプリングス"; "ららぽーと"; "駅ナカ"; "その他"].

Definition column_config_ok (cols : list string) (r : list cell) : bool :=
  match cell_at cols r "店名" with
  | CStr s => str_truthy s
  | _ => false
  end
  && match cell_at cols r "ジャンル" with
     | CStr s => label_in s genre_options
     | _ => false
     end
  && match cell_at cols r "エリア" with
     | CStr s => label_in s area_options
     | _ => false
     end
  && match cell_at cols r "評価" with
     | CInt z => (1 <=? z)%Z && (z <=? 5)%Z
     | _ => false
     end.

(* ===================================================================== *)
(** ** The registration form (lines 243-325) *)
(* ===================================================================== *)

Inductive Genre : Type :=
| Washoku | Yoshoku | Chuka | Italian | Ramen | Cafe | Izakaya | GenreOther.

Inductive Area : Type :=
| Kitaguchi | Minamiguchi | GreenSprings | Lalaport | Ekinaka | AreaOther.

(** The labels of the two select boxes (lines 247 and 249). *)
Definition genre_label (g : Genre) : string :=
  match g with
  | Washoku => "和食" | Yoshoku => "洋食" | Chuka => "中華"
  | Italian => "イタリアン" | Ramen => "ラーメン" | Cafe => "カフェ"
  | Izakaya => "居酒屋" | GenreOther => "その他"
  end.

Definition area_label (a : Area) : string :=
  match a with
  | Kitaguchi => "北口" | Minamiguchi => "南口"
  | GreenSprings => "グリーンスプリングス" | Lalaport => "ららぽーと"
  | Ekinaka => "駅ナカ" | AreaOther => "その他"
  end.

(** The values of the form's widgets when it is submitted. *)
Record Form : Type := mkForm {
  name : string;
  genre : Genre;
  area : Area;
  rating : Z;
  comment : string;
  address : string;
  lat_input : string;
  lon_input : string
}.

(** A [geopy] location. *)
Record Location : Type := mkLocation {
  loc_address : string;
  latitude : float;
  longitude : float
}.

(** What the geocoding service answers to a query: nothing found, a
    location, or a failure ([geocode] raises). *)
Inductive geo_reply : Type :=
| NoResult
| Found (loc : Location)
| ServiceError (e : string).

Definition Geocoder : Type := string -> geo_reply.

(** [geolocator.geocode(query)]; the query is noted in the world. *)
Definition geocode (geolocator : Geocoder) (query : string) : M (option Location) :=
  fun w =>
    let w' := mkWorld (sheet w) (sheet_calls w) (page w)
                      (geo_queries w ++ [query]) in
    match geolocator query with
    | NoResult => (Returned None, w')
    | Found loc => (Returned (Some loc), w')
    | ServiceError e => (Raised (Exception e), w')
    end.

(** Lines 287-291: the search words for the second try. *)
Definition search_word_of (address : string) : string :=
  let search_word := address in
  if negb (str_in "立川" search_word) then "東京都立川市 " ++ search_word
  else if negb (str_in "東京都" search_word) then "東京都 " ++ search_word
  else search_word.

(** Lines 282-294: the address as typed, then once more with the
    locality in front when nothing was found. *)
Definition geocode_address (geolocator : Geocoder) (address : string)
  : M (option Location) :=
  loc <- geocode geolocator address ;;
  match loc with
  | Some _ => ret loc
  | None =>
      let search_word := search_word_of address in
      if negb (String.eqb search_word address)
      then geocode geolocator search_word
      else ret loc
  end.

Definition not_found_message : string :=
  "⚠️ 位置情報が見つかりませんでした。住所が正しいか確認するか、'立川駅'のようなランドマークを入力してみてください。".

(** Lines 276-304.  [geopy] is the geocoder when the import of line 12
    succeeded ([GEOPY_AVAILABLE]), [None] otherwise.  Returns the new
    [lat_val, lon_val]. *)
Definition locate (geopy : option Geocoder) (address : string)
    (lat_val lon_val : cell) : M (cell * cell) :=
  match geopy with
  | Some geolocator =>
      if negb (truthy lat_val) && str_truthy address then
        try_except
          (loc <- geocode_address geolocator address ;;
           match loc with
           | Some loc =>
               st_success ("📍 位置が見つかりました: " ++ loc_address loc) ;;
               ret (CFloat (latitude loc), CFloat (longitude loc))
           | None =>
               st_warning not_found_message ;;
               ret (lat_val, lon_val)
           end)
          (fun geo_err =>
             st_error ("位置検索エラー: " ++ geo_err) ;;
             ret (lat_val, lon_val))
      else ret (lat_val, lon_val)
  | None => ret (lat_val, lon_val)
  end.

(** Lines 266-325, run when the form is submitted; [timestamp] is the
    formatted [datetime.now()]. *)
Definition register (geopy : option Geocoder) (timestamp : string) (f : Form)
  : M unit :=
  if negb (str_truthy (name f)) then
    st_warning "店名は必須です！"
  else
    try_except
      (let lat_val := CStr (lat_input f) in
       let lon_val := CStr (lon_input f) in
       coords <- locate geopy (address f) lat_val lon_val ;;
       let lat_val := if truthy (fst coords) then fst coords else CStr "" in
       let lon_val := if truthy (snd coords) then snd coords else CStr "" in
       let new_row_ordered :=
         [CStr (name f); CStr (genre_label (genre f)); CStr (area_label (area f));
          CInt (rating f); CStr (comment f); CStr (address f); CStr timestamp;
          lat_val; lon_val] in
       sheet_append_row new_row_ordered ;;
       st_success ("「" ++ name f ++ "」を登録しました！") ;;
       st_balloons)
      (fun e => st_error ("登録エラー: " ++ e)).

(* ===================================================================== *)
(** ** What the handlers write, show and send, in closed form *)
(* ===================================================================== *)

(** The labels of [wanted] the frame lacks. *)
Definition missing_of (cols wanted : list string) : list string :=
  filter (fun c => negb (label_in c cols)) wanted.

(** The row written for a record: its value under each expected label,
    blank where it has none or a missing one. *)
Definition canonical_record (d : record) : list cell :=
  map (fun c => match dict_get d c with
                | Some v => fillna_cell (CStr "") v
                | None => CStr ""
                end) expected_columns.

(** The row written for a row of a frame with columns [cols]. *)
Definition canonical_row (cols : list string) (r : list cell) : list cell :=
  map (fun c => fillna_cell (CStr "") (cell_at cols r c)) expected_columns.

(** The deletion flag of a row of the view, and the rows that are not
    flagged, without their flag. *)
Definition deletion_flag (r : list cell) : bool :=
  match r with
  | CBool b :: _ => b
  | _ => false
  end.

Definition kept_rows (view : DataFrame) : list (list cell) :=
  map (@tl cell) (filter (fun r => negb (deletion_flag r)) (rows view)).

(** The second query for an address, when there is one. *)
Definition retry_query (address : string) : option string :=
  if negb (str_in "立川" address) then Some ("東京都立川市 " ++ address)%string
  else if negb (str_in "東京都" address) then Some ("東京都 " ++ address)%string
  else None.

(** The queries a lookup of [address] sends, in order, and the reply it
    ends on. *)
Definition queries_sent (g : Geocoder) (address : string) : list string :=
  address :: match g address with
             | NoResult => match retry_query address with
                           | Some q => [q]
                           | None => []
                           end
             | _ => []
             end.

Definition lookup_reply (g : Geocoder) (address : string) : geo_reply :=
  match g address with
  | NoResult => match retry_query address with
                | Some q => g q
                | None => NoResult
                end
  | reply => reply
  end.

Definition add_queries (w : World) (qs : list string) : World :=
  mkWorld (sheet w) (sheet_calls w) (page w) (geo_queries w ++ qs).

Definition reply_outcome (reply : geo_reply) : outcome (option Location) :=
  match reply with
  | NoResult => Returned None
  | Found loc => Returned (Some loc)
  | ServiceError e => Raised (Exception e)
  end.

(** What lines 276-304 return, show and send. *)
Record Located : Type := mkLocated {
  new_lat : cell;
  new_lon : cell;
  shown : list ui_event;
  sent : list string
}.

Definition located (geopy : option Geocoder) (address : string)
    (lat_val lon_val : cell) : Located :=
  match geopy with
  | Some g =>
      if negb (truthy lat_val) && str_truthy address then
        match lookup_reply g address with
        | Found loc =>
            mkLocated (CFloat (latitude loc)) (CFloat (longitude loc))
              [Success ("📍 位置が見つかりました: " ++ loc_address loc)%string]
              (queries_sent g address)
        | NoResult =>
            mkLocated lat_val lon_val [Warning not_found_message]
              (queries_sent g address)
        | ServiceError e =>
            mkLocated lat_val lon_val [Error ("位置検索エラー: " ++ e)%string]
              (queries_sent g address)
        end
      else mkLocated lat_val lon_val [] []
  | None => mkLocated lat_val lon_val [] []
  end.

(** The row appended for a form. *)
Definition new_row (f : Form) (timestamp : string) (lat_val lon_val : cell)
  : list cell :=
  [CStr (name f); CStr (genre_label (genre f)); CStr (area_label (area f));
   CInt (rating f); CStr (comment f); CStr (address f); CStr timestamp;
   lat_val; lon_val].

(** [v if v else ""]. *)
Definition or_blank (v : cell) : cell := if truthy v then v else CStr "".

(** The form with another text in the longitude field. *)
Definition set_lon_input (f : Form) (lon : string) : Form :=
  mkForm (name f) (genre f) (area f) (rating f) (comment f) (address f)
         (lat_input f) lon.

(* ===================================================================== *)
(** ** Sheets, views, forms and geocoders for the examples *)
(* ===================================================================== *)

(** A sheet whose header has drifted: no genre column, one unknown
    column. *)
Definition drifted_records : list record :=
  [[("店名", CStr "A"); ("備考", CStr "x")]].

Definition venue (n g a : string) (r : Z) (addr : string) (lat lon : float)
  : record :=
  [("店名", CStr n); ("ジャンル", CStr g); ("エリア", CStr a); ("評価", CInt r);
   ("メモ", CStr ""); ("住所", CStr addr); ("登録日", CStr "2024-01-01 10:00");
   ("緯度", CFloat lat); ("経度", CFloat lon)].

Definition sample_records : list record :=
  [venue "麺屋A" "ラーメン" "北口" 4 "立川市曙町2-1-1" 35.5 139.25;
   venue "喫茶B" "カフェ" "南口" 3 "立川市柴崎町3-1-1" 35.25 139.5;
   venue "酒場C" "居酒屋" "駅ナカ" 5 "立川市柴崎町3-1-2" 35.75 139.75].

Definition sample_row (n g a : string) (r : Z) (addr : string) (lat lon : float)
  : list cell :=
  [CStr n; CStr g; CStr a; CInt r; CStr ""; CStr addr;
   CStr "2024-01-01 10:00"; CFloat lat; CFloat lon].

(** The sheet as it is before a save: header and the three venues. *)
Definition sample_world : World :=
  mkWorld [map CStr expected_columns;
           sample_row "麺屋A" "ラーメン" "北口" 4 "立川市曙町2-1-1" 35.5 139.25;
           sample_row "喫茶B" "カフェ" "南口" 3 "立川市柴崎町3-1-1" 35.25 139.5;
           sample_row "酒場C" "居酒屋" "駅ナカ" 5 "立川市柴崎町3-1-2" 35.75 139.75]
          [] [] [].

(** Stand-ins for the two library functions of the filter: a float shown
    as a fixed text, a pattern matched as a plain substring. *)
Definition sample_float_repr (f : float) : string := "0.0".

Definition sample_matcher (pattern : string) : option (string -> bool) :=
  Some (fun s => str_in pattern s).

(** The view under the search words ラーメン: one row. *)
Definition ramen_view : DataFrame :=
  mkDF ("削除" :: expected_columns)
       [CBool false
        :: sample_row "麺屋A" "ラーメン" "北口" 4 "立川市曙町2-1-1" 35.5 139.25].

(** The whole view, the second venue flagged for deletion. *)
Definition flagged_view : DataFrame :=
  mkDF ("削除" :: expected_columns)
       [CBool false
        :: sample_row "麺屋A" "ラーメン" "北口" 4 "立川市曙町2-1-1" 35.5 139.25;
        CBool true
        :: sample_row "喫茶B" "カフェ" "南口" 3 "立川市柴崎町3-1-1" 35.25 139.5;
        CBool false
        :: sample_row "酒場C" "居酒屋" "駅ナカ" 5 "立川市柴崎町3-1-2" 35.75 139.75].

(** A sheet with one venue rated 6, and the view of it after the user
    has moved the venue to another area. *)
Definition rating6_world : World :=
  mkWorld [map CStr expected_columns;
           sample_row "麺屋A" "ラーメン" "北口" 6 "立川市曙町2-1-1" 35.5 139.25]
          [] [] [].

Definition rating6_records : list record :=
  [venue "麺屋A" "ラーメン" "北口" 6 "立川市曙町2-1-1" 35.5 139.25].

Definition rating6_edit_df : DataFrame :=
  mkDF ("削除" :: expected_columns)
       [CBool false
        :: sample_row "麺屋A" "ラーメン" "北口" 6 "立川市曙町2-1-1" 35.5 139.25].

Definition rating6_view : DataFrame :=
  mkDF ("削除" :: expected_columns)
       [CBool false
        :: sample_row "麺屋A" "ラーメン" "南口" 6 "立川市曙町2-1-1" 35.5 139.25].

(** A geocoder that finds nothing, one that is out of service, and one
    that only knows the station. *)
Definition nothing_found : Geocoder := fun _ => NoResult.

Definition out_of_service : Geocoder := fun _ => ServiceError "timed out".

Definition station_only : Geocoder :=
  fun q => if String.eqb q "立川駅"
           then Found (mkLocation "立川駅, 立川市, 東京都, 日本" 35.5 139.25)
           else NoResult.

Definition no_world : World := mkWorld [] [] [] [].

(* ===================================================================== *)
(** ** The login (lines 68-77) *)
(* ===================================================================== *)

(** How the login block leaves the script: on to the page, restarted
    ([st.rerun()]) or ended ([st.stop()]). *)
Inductive gate : Type :=
| Proceed
| GateRerun
| GateStop.

(** [password == v] for the text typed and a value of the secrets file:
    only a string can be equal to it. *)
Definition password_equals (password : string) (v : cell) : bool :=
  match v with
  | CStr s => String.eqb password s
  | _ => false
  end.

Definition wrong_password_message : string := "パスワードが違います".

(** Lines 68-77.  [authenticated] tells whether the key is in the session
    state, [app_password] is the entry of the secrets file when there is
    one, [password] the text typed.  Returns how the block ends, whether
    the key is in the session state afterwards, and the error it shows,
    if any. *)
Definition login (authenticated : bool) (app_password : option cell)
    (password : string) : gate * bool * list ui_event :=
  if negb authenticated then
    if match app_password with
       | Some v => password_equals password v
       | None => false
       end
    then (GateRerun, true, [])
    else (GateStop, false,
          if str_truthy password then [Error wrong_password_message] else [])
  else (Proceed, true, []).

(* ===================================================================== *)
(** ** The connection (lines 31-62) and one run of the script *)
(* ===================================================================== *)

(** How a run of [main] ends: at its last line, restarted, stopped, or
    on an exception nothing catches ([e] is its [str]). *)
Inductive run_end : Type :=
| Finished
| Rerun
| Stopped
| Crashed (e : string).

Definition add_events (w : World) (evs : list ui_event) : World :=
  mkWorld (sheet w) (sheet_calls w) (page w ++ evs) (geo_queries w).

(** [d.get(k)] on a table of the secrets file. *)
Fixpoint table_get {V : Type} (d : list (string * V)) (k : string) : option V :=
  match d with
  | [] => None
  | (k', v) :: d' => if String.eqb k k' then Some v else table_get d' k
  end.

Section App.

(** What belongs to the libraries: the client of the spreadsheet service
    and the service-account info it is made from; [json.loads] ([None]:
    [JSONDecodeError]; [Some None]: the text is [null]);
    [Credentials.from_service_account_info] followed by
    [gspread.authorize] (the client, or the [str] of what was raised);
    [client.open(SHEET_NAME).sheet1] ([Some e]: it raises); the records
    [get_all_records] makes of the cells of the sheet (or the [str] of
    what it raises); the drawing of the map, lines 107-144 (what it shows
    of warnings, or the [str] of what it raises); [repr] of a float and
    the compilation of a search pattern, as for the filter. *)
Variable Client : Type.
Variable Info : Type.
Variable json_loads : string -> option (option Info).
Variable authorize : Info -> string + Client.
Variable open_sheet1 : Client -> option string.
Variable get_all_records : list (list cell) -> string + list record.
Variable show_map : DataFrame -> string + list ui_event.
Variable float_repr : float -> string.
Variable re_compile_ignorecase : string -> option (string -> bool).

(** The value under ["info"], by the two [isinstance] tests of lines 44
    and 46: a [dict], a [str], anything else. *)
Inductive SecretValue : Type :=
| SecretDict (d : Info)
| SecretStr (s : string)
| SecretOther.

(** The two entries of the secrets file the script reads, each when it
    is there; [gcp_service_account] is a table. *)
Record Secrets : Type := mkSecrets {
  app_password : option cell;
  gcp_service_account : option (list (string * SecretValue))
}.

(** What [get_connection] ends on: the client returned, or [st.stop()]. *)
Inductive connection : Type :=
| Connected (client : Client)
| ConnectionStopped.

(** Lines 56-62. *)
Definition authorize_or_stop (creds_dict : Info) : connection * list ui_event :=
  match authorize creds_dict with
  | inr client => (Connected client, [])
  | inl e => (ConnectionStopped, [Error ("認証エラー: " ++ e)])
  end.

(** Lines 53-62. *)
Definition connect_with (creds_dict : option Info) : connection * list ui_event :=
  match creds_dict with
  | None => (ConnectionStopped, [])
  | Some d => authorize_or_stop d
  end.

(** Lines 31-62: the result and what is shown on the way. *)
Definition get_connection (secrets : Secrets) : connection * list ui_event :=
  match gcp_service_account secrets with
  | None => (ConnectionStopped, [Error "Secretsの設定が見つかりません。"])
  | Some table =>
      match table_get table "info" with
      | None => (ConnectionStopped, [Error "Secretsに 'info' キーが見つかりません。"])
      | Some secret_value =>
          match secret_value with
          | SecretDict d => connect_with (Some d)
          | SecretStr s =>
              match json_loads s with
              | None =>
                  (ConnectionStopped,
                   [Error "JSON形式エラー。Secretsを確認してください。"])
              | Some creds_dict => connect_with creds_dict
              end
          | SecretOther => connect_with None
          end
      end
  end.

(** Lines 82-100: the loaded table, or what is shown before [st.stop()]. *)
Definition load_sheet (secrets : Secrets) (w : World)
  : list ui_event + DataFrame :=
  match get_connection secrets with
  | (ConnectionStopped, evs) => inl evs
  | (Connected client, _) =>
      match open_sheet1 client with
      | Some e => inl [Error ("データ読み込みエラー: " ++ e)]
      | None =>
          match get_all_records (sheet w) with
          | inl e => inl [Error ("データ読み込みエラー: " ++ e)]
          | inr data => inr (load_data data)
          end
      end
  end.

(** What the run is given besides the sheet: the secrets file, the
    geocoder when [geopy] could be imported, the clock. *)
Record Env : Type := mkEnv {
  secrets : Secrets;
  geopy_geocoder : option Geocoder;
  now : string
}.

(** The state of the widgets in this run: the password typed, the search
    words, the two buttons of the list, what the editor hands back for
    the frame it is given, the form and its button. *)
Record Widgets : Type := mkWidgets {
  ui_password : string;
  ui_search_query : string;
  ui_reload : bool;
  ui_data_editor : DataFrame -> DataFrame;
  ui_save : bool;
  ui_form : Form;
  ui_submitted : bool
}.

(** How a handler leaves the run: [None] when it returns. *)
Definition end_of (o : outcome unit) : option run_end :=
  match o with
  | Returned _ => None
  | Raised RerunException => Some Rerun
  | Raised (Exception e) => Some (Crashed e)
  end.

(** Lines 239-325: the second tab. *)
Definition tab2 (env : Env) (ui : Widgets) (w : World) : run_end * World :=
  if ui_submitted ui then
    let r := register (geopy_geocoder env) (now env) (ui_form ui) w in
    match end_of (fst r) with
    | Some e => (e, snd r)
    | None => (Finished, snd r)
    end
  else (Finished, w).

(** Lines 146-237, then the second tab: the list, from the reload button
    on. *)
Definition list_editor (env : Env) (ui : Widgets) (df : DataFrame) (w : World)
  : run_end * World :=
  if ui_reload ui then (Rerun, w)
  else
    match make_edit_df float_repr re_compile_ignorecase df (ui_search_query ui) with
    | Raised (Exception e) => (Crashed e, w)
    | Raised RerunException => (Rerun, w)
    | Returned edit_df =>
        let edited_df := ui_data_editor ui edit_df in
        if ui_save ui then
          let r := save_changes (ui_search_query ui) edited_df w in
          match end_of (fst r) with
          | Some e => (e, snd r)
          | None => tab2 env ui (snd r)
          end
        else tab2 env ui w
    end.

(** One run of [main] (lines 64-325): how it ends, whether the session
    is authenticated afterwards, and the world it leaves.  Of what the
    page shows, the world keeps the warnings, errors and successes. *)
Definition main (authenticated : bool) (env : Env) (ui : Widgets) (w : World)
  : run_end * bool * World :=
  match login authenticated (app_password (secrets env)) (ui_password ui) with
  | (GateRerun, a, evs) => (Rerun, a, add_events w evs)
  | (GateStop, a, evs) => (Stopped, a, add_events w evs)
  | (Proceed, a, _) =>
      match load_sheet (secrets env) w with
      | inl evs => (Stopped, a, add_events w evs)
      | inr df =>
          match show_map df with
          | inl e => (Crashed e, a, w)
          | inr evs =>
              let r := list_editor env ui df (add_events w evs) in
              (fst r, a, snd r)
          end
      end
  end.

End App.

(** Libraries for the examples: no client to speak of, every secret text
    parses, every info is authorised, the sheet opens, and the records
    read are those of the three venues. *)
Definition sample_json_loads (s : string) : option (option unit) :=
  Some (Some tt).

Definition sample_authorize (info : unit) : string + unit := inr tt.

Definition sample_open (client : unit) : option string := None.

Definition sample_read (cells : list (list cell)) : string + list record :=
  inr sample_records.

Definition sample_show_map (df : DataFrame) : string + list ui_event := inr [].

Definition sample_secrets : Secrets unit :=
  mkSecrets unit (Some (CStr "himitsu")) (Some [("info", SecretDict unit tt)]).

Definition sample_env : Env unit :=
  mkEnv unit sample_secrets (Some station_only) "2024-01-01 10:00".

Definition sample_widgets : Widgets :=
  mkWidgets "" "" false (fun edit_df => edit_df) true
            (mkForm "立川食堂" Washoku Kitaguchi 3 "" "立川駅" "" "") true.

(** A sheet whose header has a column named like the deletion flag. *)
Definition flag_named_records : list record :=
  [[("店名", CStr "A"); ("削除", CStr "x")]].

Definition flag_named_read (cells : list (list cell)) : string + list record :=
  inr flag_named_records.

(** A geocoder that places every query on the equator. *)
Definition on_the_equator : Geocoder :=
  fun q => Found (mkLocation "赤道" 0 139.25).

(** No record has a label: [pd.DataFrame(data)] has no column (or, with
    no record at all, no row either). *)
Definition no_labels (data : list record) : bool :=
  forallb (fun d : record => match d with [] => true | _ :: _ => false end)
          data.

(** How a written cell [v] stands to what a record holds under the
    cell's label: blank when the record has nothing there or a missing
    value, the same string when it has a string, and otherwise some value
    that is not a missing one. *)
Definition written_for (x : option cell) (v : cell) : Prop :=
  match x with
  | None => v = CStr ""
  | Some (CStr s) => v = CStr s
  | Some x' => if isna x' then v = CStr "" else isna v = false
  end.

(** A sheet whose columns are out of order: the area first, then an
    unknown column, then the name; no other expected column. *)
Definition shuffled_records : list record :=
  [[("エリア", CStr "北口"); ("備考", CStr "x"); ("店名", CStr "麺屋A")];
   [("エリア", CStr "南口"); ("備考", CStr "y"); ("店名", CStr "喫茶B")]].

(* ===================================================================== *)
(** * Part II: properties *)
(* ===================================================================== *)

(* ===================================================================== *)
(** ** Loading the sheet (lines 85-96) *)
(* ===================================================================== *)

Example load_data_example :
  load_data [[("店名", CStr "A"); ("評価", CInt 3)]]
  = mkDF ["店名"; "評価"; "緯度"; "経度"; "住所"]
         [[CStr "A"; CInt 3; CNone; CNone; CNone]].
Proof. reflexivity. Qed.

(* ===================================================================== *)
(** ** Labels and positions *)
(* ===================================================================== *)

Lemma str_truthy_false (s : string) : str_truthy s = false <-> s = "".
Proof. destruct s; cbn; split; congruence. Qed.

Lemma str_truthy_true (s : string) : str_truthy s = true <-> s <> "".
Proof. destruct s; cbn; split; congruence. Qed.

Lemma label_in_app (c : string) (xs ys : list string) :
  label_in c (xs ++ ys) = label_in c xs || label_in c ys.
Proof. unfold label_in. apply existsb_app. Qed.

Lemma label_in_In (c : string) (xs : list string) :
  label_in c xs = true <-> In c xs.
Proof.
  unfold label_in. rewrite existsb_exists. split.
  - intros [x [Hin Heq]]. apply String.eqb_eq in Heq. now subst.
  - intros Hin. exists c. split; [assumption | apply String.eqb_refl].
Qed.

Lemma get_loc_None (c : string) (cols : list string) :
  get_loc c cols = None <-> label_in c cols = false.
Proof.
  induction cols as [|c' cols IH]; simpl.
  - tauto.
  - destruct (String.eqb c c'); simpl.
    + split; discriminate.
    + destruct (get_loc c cols); simpl in *.
      * split; [discriminate | intro H; apply IH in H; discriminate].
      * split; intros _; [now apply IH | reflexivity].
Qed.

Lemma get_loc_Some (c : string) (cols : list string) (i : nat) :
  get_loc c cols = Some i -> nth_error cols i = Some c.
Proof.
  revert i. induction cols as [|c' cols IH]; simpl; intros i H.
  - discriminate.
  - destruct (String.eqb c c') eqn:E.
    + injection H as <-. apply String.eqb_eq in E. now subst.
    + destruct (get_loc c cols) as [j|]; simpl in H; [|discriminate].
      injection H as <-. simpl. now apply IH.
Qed.

Lemma get_loc_lt (c : string) (cols : list string) (i : nat) :
  get_loc c cols = Some i -> i < length cols.
Proof.
  intros H. apply get_loc_Some in H. apply nth_error_Some. congruence.
Qed.

Lemma get_loc_app_l (c : string) (cols extra : list string) (i : nat) :
  get_loc c cols = Some i -> get_loc c (cols ++ extra) = Some i.
Proof.
  revert i. induction cols as [|c' cols IH]; simpl; intros i H.
  - discriminate.
  - destruct (String.eqb c c'); [assumption|].
    destruct (get_loc c cols) as [j|]; simpl in H; [|discriminate].
    now rewrite (IH j eq_refl).
Qed.

Lemma get_loc_app_r (c : string) (cols extra : list string) :
  get_loc c cols = None ->
  get_loc c (cols ++ extra)
  = option_map (fun j => length cols + j) (get_loc c extra).
Proof.
  induction cols as [|c' cols IH]; simpl; intros H.
  - now destruct (get_loc c extra).
  - destruct (String.eqb c c'); [discriminate|].
    destruct (get_loc c cols); simpl in H; [discriminate|].
    rewrite (IH eq_refl). now destruct (get_loc c extra).
Qed.

(** Looking a label up in a row computed label by label. *)
Lemma cell_at_map (f : string -> cell) (cols : list string) (c : string) :
  label_in c cols = true -> cell_at cols (map f cols) c = f c.
Proof.
  intros Hin. unfold cell_at.
  destruct (get_loc c cols) as [i|] eqn:E.
  - apply get_loc_Some in E. apply nth_error_nth.
    rewrite nth_error_map, E. reflexivity.
  - apply get_loc_None in E. congruence.
Qed.

Lemma cell_at_absent (cols : list string) (r : list cell) (c : string) :
  label_in c cols = false -> cell_at cols r c = NaN.
Proof.
  intros H. unfold cell_at. apply get_loc_None in H. now rewrite H.
Qed.

(** Columns of [None] added at the end do not show once the missing
    values are blanked. *)
Lemma cell_at_padded (v : cell) (cols extra : list string) (r : list cell)
    (c : string) :
  length r = length cols ->
  fillna_cell v (cell_at (cols ++ extra) (r ++ repeat CNone (length extra)) c)
  = fillna_cell v (cell_at cols r c).
Proof.
  intros Hlen. unfold cell_at.
  destruct (get_loc c cols) as [i|] eqn:E.
  - rewrite (get_loc_app_l _ _ extra _ E).
    rewrite app_nth1; [reflexivity|].
    apply get_loc_lt in E. lia.
  - rewrite (get_loc_app_r _ _ extra E).
    destruct (get_loc c extra) as [j|] eqn:E'; simpl; [|reflexivity].
    rewrite app_nth2 by lia.
    replace (length cols + j - length r) with j by lia.
    apply get_loc_lt in E'.
    rewrite (nth_indep _ NaN CNone) by (rewrite repeat_length; lia).
    rewrite nth_repeat. reflexivity.
Qed.

(* ===================================================================== *)
(** ** What the load does to the columns *)
(* ===================================================================== *)

Lemma ensure_columns_spec (wanted : list string) :
  NoDup wanted ->
  forall df,
    ensure_columns wanted df
    = mkDF (columns df ++ missing_of (columns df) wanted)
           (map (fun r => r ++ repeat CNone (length (missing_of (columns df) wanted)))
                (rows df)).
Proof.
  induction wanted as [|col wanted IH]; intros Hnd [cols rs].
  - cbn. rewrite app_nil_r. f_equal.
    rewrite <- (map_id rs) at 1. apply map_ext. intros r. now rewrite app_nil_r.
  - inversion Hnd as [|? ? Hnotin Hnd']; subst.
    unfold ensure_columns in *. cbn [fold_left columns rows].
    unfold missing_of. cbn [filter].
    destruct (label_in col cols) eqn:E; cbn [negb].
    + rewrite (IH Hnd'). reflexivity.
    + unfold df_setitem. cbn [columns rows].
      assert (Hloc : get_loc col cols = None) by now apply get_loc_None.
      rewrite Hloc. rewrite (IH Hnd'). cbn [columns rows].
      assert (Hm : missing_of (cols ++ [col]) wanted = missing_of cols wanted).
      { unfold missing_of. apply filter_ext_in. intros c Hc.
        rewrite label_in_app. cbn.
        destruct (String.eqb c col) eqn:Ec.
        - apply String.eqb_eq in Ec. subst. contradiction.
        - now rewrite !orb_false_r. }
      rewrite Hm. unfold missing_of. rewrite <- app_assoc. cbn [app].
      f_equal. rewrite map_map. apply map_ext. intros r.
      rewrite <- app_assoc. reflexivity.
Qed.

Lemma geo_columns_NoDup : NoDup ["緯度"; "経度"; "住所"].
Proof.
  repeat constructor; cbn; intuition discriminate.
Qed.

(** A label of some record is a column of the frame built from them. *)
Lemma fold_keys_seen (d : record) (seen : list string) (c : string) :
  label_in c seen = true ->
  label_in c (fold_left (fun acc kv => if label_in (fst kv) acc then acc
                                       else acc ++ [fst kv]) d seen) = true.
Proof.
  revert seen. induction d as [|[k v] d IH]; intros seen H; cbn.
  - assumption.
  - apply IH. destruct (label_in k seen); [assumption|].
    rewrite label_in_app, H. reflexivity.
Qed.

Lemma fold_keys_has (d : record) (seen : list string) (c : string) (v : cell) :
  dict_get d c = Some v ->
  label_in c (fold_left (fun acc kv => if label_in (fst kv) acc then acc
                                       else acc ++ [fst kv]) d seen) = true.
Proof.
  revert seen. induction d as [|[k v'] d IH]; intros seen H; cbn in *.
  - discriminate.
  - destruct (String.eqb c k) eqn:E.
    + apply String.eqb_eq in E. subst k. apply fold_keys_seen.
      destruct (label_in c seen) eqn:Es; [assumption|].
      rewrite label_in_app. cbn. rewrite String.eqb_refl.
      now rewrite orb_true_r.
    + now apply IH.
Qed.

Lemma union_keys_seen (data : list record) (seen : list string) (c : string) :
  label_in c seen = true -> label_in c (union_keys seen data) = true.
Proof.
  revert seen. induction data as [|d data IH]; intros seen H; cbn.
  - assumption.
  - apply IH. now apply fold_keys_seen.
Qed.

Lemma union_keys_has (data : list record) (seen : list string) (d : record)
    (c : string) (v : cell) :
  In d data -> dict_get d c = Some v ->
  label_in c (union_keys seen data) = true.
Proof.
  revert seen. induction data as [|d' data IH]; intros seen Hin Hget; cbn.
  - contradiction.
  - destruct Hin as [-> | Hin].
    + apply union_keys_seen. eapply fold_keys_has; eassumption.
    + now apply IH.
Qed.

(** The cell of a record's row under any label is the record's value
    there, NaN when it has none. *)
Lemma records_cell_at (data : list record) (d : record) (c : string) :
  In d data ->
  let cols := union_keys [] data in
  cell_at cols (map (fun c => match dict_get d c with
                              | Some v => v
                              | None => NaN
                              end) cols) c
  = match dict_get d c with Some v => v | None => NaN end.
Proof.
  intros Hin cols.
  destruct (label_in c cols) eqn:E.
  - now rewrite cell_at_map.
  - rewrite cell_at_absent by assumption.
    destruct (dict_get d c) as [v|] eqn:G; [|reflexivity].
    pose proof (union_keys_has data [] d c v Hin G) as H.
    fold cols in H. congruence.
Qed.

Lemma update_values_of_rows (cols : list string) (rs : list (list cell)) :
  update_values_of (mkDF cols rs)
  = map CStr expected_columns :: map (canonical_row cols) rs.
Proof.
  unfold update_values_of, fillna, reindex. cbn [columns rows].
  f_equal. rewrite map_map. apply map_ext. intros r.
  unfold canonical_row. now rewrite map_map.
Qed.

Lemma fillna_cell_filled (v : cell) :
  isna (fillna_cell (CStr "") v) = false.
Proof.
  unfold fillna_cell. destruct (isna v) eqn:E; [reflexivity | assumption].
Qed.

Lemma load_data_frame (data : list record) :
  let df := DataFrame_of_records data in
  let added := missing_of (columns df) ["緯度"; "経度"; "住所"] in
  load_data data
  = if df_empty df then mkDF expected_columns []
    else mkDF (columns df ++ added)
              (map (fun r => r ++ repeat CNone (length added)) (rows df)).
Proof.
  intros df added. unfold load_data. fold df.
  destruct (df_empty df); [reflexivity|].
  subst added. apply ensure_columns_spec. exact geo_columns_NoDup.
Qed.

Lemma update_values_of_load (data : list record) :
  update_values_of (load_data data)
  = map CStr expected_columns
    :: (if df_empty (DataFrame_of_records data) then []
        else map canonical_record data).
Proof.
  rewrite load_data_frame. cbv zeta.
  destruct (df_empty (DataFrame_of_records data)); [reflexivity|].
  rewrite update_values_of_rows. f_equal.
  unfold DataFrame_of_records. cbn [columns rows].
  rewrite !map_map. apply map_ext_in. intros d Hd.
  unfold canonical_row, canonical_record.
  apply map_ext. intros c.
  rewrite cell_at_padded by now rewrite length_map.
  rewrite (records_cell_at data d c Hd).
  now destruct (dict_get d c).
Qed.

Lemma some_record_labelled (data : list record) :
  no_labels data = false ->
  exists d k v, In d data /\ dict_get d k = Some v.
Proof.
  induction data as [|d data IH]; cbn; [discriminate|].
  destruct d as [|[k v] d'].
  - intros H. destruct (IH H) as [d0 [k0 [v0 [Hin Hget]]]].
    exists d0, k0, v0. auto.
  - intros _. exists ((k, v) :: d'), k, v. split; [now left|].
    cbn. now rewrite String.eqb_refl.
Qed.

Lemma union_keys_no_labels (data : list record) (seen : list string) :
  no_labels data = true -> union_keys seen data = seen.
Proof.
  revert seen. induction data as [|d data IH]; intros seen H; [reflexivity|].
  cbn in H. destruct d as [|kv d']; [|discriminate H].
  cbn. now apply IH.
Qed.

(** The frame built from the records is empty exactly when no record has
    a label. *)
Lemma df_empty_no_labels (data : list record) :
  df_empty (DataFrame_of_records data) = no_labels data.
Proof.
  unfold df_empty, DataFrame_of_records. cbn [columns rows].
  destruct (no_labels data) eqn:E.
  - now rewrite (union_keys_no_labels data [] E).
  - destruct (some_record_labelled data E) as [d [k [v [Hin Hget]]]].
    pose proof (union_keys_has data [] d k v Hin Hget) as Hk.
    destruct (union_keys [] data) as [|c cols]; [discriminate Hk|].
    destruct data as [|d0 data']; [contradiction | reflexivity].
Qed.

Lemma Forall2_map_self {A B : Type} (R : A -> B -> Prop) (f : A -> B)
    (l : list A) :
  (forall x, In x l -> R x (f x)) -> Forall2 R l (map f l).
Proof.
  induction l as [|x l IH]; intros H; cbn; constructor.
  - apply H. now left.
  - apply IH. intros y Hy. apply H. now right.
Qed.

Lemma canonical_record_written (d : record) :
  Forall2 (fun c v => written_for (dict_get d c) v) expected_columns
          (canonical_record d).
Proof.
  unfold canonical_record. apply Forall2_map_self. intros c _.
  unfold written_for, fillna_cell.
  destruct (dict_get d c) as [[s|z|x|b|]|]; cbn [isna]; try reflexivity.
  destruct (is_nan x) eqn:E; [reflexivity | exact E].
Qed.

Lemma canonical_record_clean (d : record) :
  length (canonical_record d) = 9
  /\ forallb (fun v => negb (isna v)) (canonical_record d) = true.
Proof.
  split; [reflexivity|].
  unfold canonical_record. apply forallb_forall. intros v Hv.
  apply in_map_iff in Hv. destruct Hv as [c [<- _]].
  destruct (dict_get d c); [|reflexivity].
  now rewrite fillna_cell_filled.
Qed.

(* ===================================================================== *)
(** ** Load: which columns the loaded table has *)
(* ===================================================================== *)

(** C4, as stated, fails: the load of [drifted_records] keeps the unknown
    column 備考 and does not make up the absent expected columns other
    than 緯度, 経度 and 住所 (ジャンル, for one, is still absent). *)
Lemma load_data_not_canonical :
  columns (load_data drifted_records) = ["店名"; "備考"; "緯度"; "経度"; "住所"]
  /\ ~ (forall c, In c expected_columns ->
                  In c (columns (load_data drifted_records)))
  /\ ~ (forall c, In c (columns (load_data drifted_records)) ->
                  In c expected_columns).
Proof.
  split; [reflexivity|]. split; intros H.
  - specialize (H "ジャンル"). cbn in H.
    assert (Hin : "店名" = "ジャンル" \/ "ジャンル" = "ジャンル" \/
                  "エリア" = "ジャンル" \/ "評価" = "ジャンル" \/
                  "メモ" = "ジャンル" \/ "住所" = "ジャンル" \/
                  "登録日" = "ジャンル" \/ "緯度" = "ジャンル" \/
                  "経度" = "ジャンル" \/ False) by (right; left; reflexivity).
    specialize (H Hin). intuition discriminate.
  - specialize (H "備考"). cbn in H.
    assert (Hin : "店名" = "備考" \/ "備考" = "備考" \/ "緯度" = "備考" \/
                  "経度" = "備考" \/ "住所" = "備考" \/ False)
      by (right; left; reflexivity).
    specialize (H Hin). intuition discriminate.
Qed.

(** C4, amended: the load of a sheet without records is the empty table
    with exactly the expected columns; the load of any other sheet keeps
    every column of the input, in the input's order, and adds at the end,
    filled with [None], those of 緯度, 経度, 住所 (in this order) that the
    input lacks.  No other column is added and none is dropped. *)
Theorem load_data_columns (data : list record) :
  let df := DataFrame_of_records data in
  let added := missing_of (columns df) ["緯度"; "経度"; "住所"] in
  load_data data
  = if df_empty df then mkDF expected_columns []
    else mkDF (columns df ++ added)
              (map (fun r => r ++ repeat CNone (length added)) (rows df)).
Proof.
  intros df added. unfold load_data. fold df.
  destruct (df_empty df).
  - reflexivity.
  - subst added. apply ensure_columns_spec. exact geo_columns_NoDup.
Qed.

(* ===================================================================== *)
(** ** Load, then the reordering done before a write *)
(* ===================================================================== *)

(** C5: whatever the labels of the records, their order and the labels
    that are missing, the values computed for the write from the loaded
    table are the header of the nine expected columns, in their fixed
    order, followed by rows of nine cells none of which is a missing
    value.  There is one row per record (none when no record has a
    label), and its cell under each expected label is the empty string
    when the record has nothing or a missing value under that label, the
    record's string when it has a string, and some value that is not
    missing otherwise. *)
Theorem canonical_round_trip (data : list record) :
  exists body : list (list cell),
    update_values_of (load_data data) = map CStr expected_columns :: body
    /\ Forall (fun r => length r = 9
                        /\ forallb (fun v => negb (isna v)) r = true) body
    /\ (if no_labels data then body = []
        else Forall2 (fun d r =>
                        Forall2 (fun c v => written_for (dict_get d c) v)
                                expected_columns r)
                     data body).
Proof.
  rewrite update_values_of_load, df_empty_no_labels.
  destruct (no_labels data).
  - exists []. split; [reflexivity|]. split; [constructor | reflexivity].
  - exists (map canonical_record data). split; [reflexivity|]. split.
    + apply Forall_forall. intros r Hr. apply in_map_iff in Hr.
      destruct Hr as [d [<- _]]. apply canonical_record_clean.
    + apply Forall2_map_self. intros d _. apply canonical_record_written.
Qed.

(** The two shuffled records: the name comes first again, the area
    third, the unknown column is gone, the rest is blank. *)
Lemma canonical_round_trip_witness :
  update_values_of (load_data shuffled_records)
  = [map CStr expected_columns;
     [CStr "麺屋A"; CStr ""; CStr "北口"; CStr ""; CStr ""; CStr ""; CStr "";
      CStr ""; CStr ""];
     [CStr "喫茶B"; CStr ""; CStr "南口"; CStr ""; CStr ""; CStr ""; CStr "";
      CStr ""; CStr ""]]
  /\ exists body : list (list cell),
       update_values_of (load_data shuffled_records)
       = map CStr expected_columns :: body
       /\ Forall (fun r => length r = 9
                           /\ forallb (fun v => negb (isna v)) r = true) body
       /\ Forall2 (fun d r =>
                     Forall2 (fun c v => written_for (dict_get d c) v)
                             expected_columns r)
                  shuffled_records body.
Proof.
  split; [reflexivity|].
  exact (canonical_round_trip shuffled_records).
Defined.

(* ===================================================================== *)
(** ** The view handed back by the editor *)
(* ===================================================================== *)

Lemma labels_eqb_eq (xs ys : list string) :
  labels_eqb xs ys = true -> xs = ys.
Proof.
  revert ys. induction xs as [|x xs IH]; intros [|y ys] H; cbn in H;
    try discriminate; [reflexivity|].
  apply andb_true_iff in H. destruct H as [Hxy H].
  apply String.eqb_eq in Hxy. subst. f_equal. now apply IH.
Qed.

Section View.

Variable float_repr : float -> string.
Variable re_compile_ignorecase : string -> option (string -> bool).

Lemma make_edit_df_columns (df edit_df : DataFrame) (q : string) :
  make_edit_df float_repr re_compile_ignorecase df q = Returned edit_df ->
  columns edit_df = "削除" :: columns df.
Proof.
  unfold make_edit_df, df_insert.
  destruct (label_in "削除" (columns df)); [discriminate|].
  destruct (str_truthy q).
  - destruct (re_compile_ignorecase q); [|discriminate].
    intros H. injection H as <-. reflexivity.
  - intros H. injection H as <-. reflexivity.
Qed.

End View.

(** Every row of the editor's result starts with its flag. *)
Lemma data_editor_rows (cols : list string) (edit_df edited_df : DataFrame) :
  columns edit_df = "削除" :: cols ->
  data_editor_returns edit_df edited_df = true ->
  columns edited_df = "削除" :: cols
  /\ Forall (fun r => r = CBool (deletion_flag r) :: tl r) (rows edited_df).
Proof.
  intros Hc H. unfold data_editor_returns in H.
  apply andb_true_iff in H. destruct H as [H Hrows].
  apply andb_true_iff in H. destruct H as [Hcols _].
  apply labels_eqb_eq in Hcols. rewrite Hc in Hcols. split; [now symmetry|].
  apply Forall_forall. intros r Hr.
  rewrite forallb_forall in Hrows. specialize (Hrows r Hr).
  apply andb_true_iff in Hrows. destruct Hrows as [_ Hb].
  rewrite <- Hcols in Hb. cbn in Hb.
  destruct r as [|[s|z|f|b|] r']; cbn in Hb; try discriminate.
  reflexivity.
Qed.

Lemma invert_all_flags (rs : list (list cell)) :
  Forall (fun r => r = CBool (deletion_flag r) :: tl r) rs ->
  invert_all (map (fun r => nth 0 r NaN) rs)
  = Returned (map (fun r => negb (deletion_flag r)) rs).
Proof.
  induction 1 as [|r rs Hr _ IH]; cbn.
  - reflexivity.
  - rewrite Hr at 1. cbn. now rewrite IH.
Qed.

Lemma filter_by_mask {A} (f : A -> bool) (l : list A) :
  map snd (filter (fun br : bool * A => fst br) (combine (map f l) l))
  = filter f l.
Proof.
  induction l as [|x l IH]; cbn; [reflexivity|].
  destruct (f x); cbn; now rewrite IH.
Qed.

(** Line 200 on a view: the rows that are not flagged, the flag column
    dropped. *)
Lemma save_df_of_view (cols : list string) (edited_df : DataFrame) :
  columns edited_df = "削除" :: cols ->
  Forall (fun r => r = CBool (deletion_flag r) :: tl r) (rows edited_df) ->
  save_df_of edited_df = Returned (mkDF cols (kept_rows edited_df)).
Proof.
  intros Hc Hr. unfold save_df_of, invert_column. rewrite Hc. cbn [get_loc].
  replace (String.eqb "削除" "削除") with true by reflexivity.
  rewrite (invert_all_flags _ Hr).
  unfold drop_column, boolean_index. cbn [columns rows]. rewrite Hc.
  cbn [get_loc].
  replace (String.eqb "削除" "削除") with true by reflexivity.
  rewrite filter_by_mask. reflexivity.
Qed.

Lemma overlay_nil (values : list (list cell)) : overlay values [] = values.
Proof. now destruct values. Qed.

(** The save with no search words, on a view. *)
Lemma save_changes_unfiltered (cols : list string) (edited_df : DataFrame)
    (w : World) :
  columns edited_df = "削除" :: cols ->
  Forall (fun r => r = CBool (deletion_flag r) :: tl r) (rows edited_df) ->
  save_changes "" edited_df w
  = (Raised RerunException,
     mkWorld (map CStr expected_columns
              :: map (canonical_row cols) (kept_rows edited_df))
             (sheet_calls w
              ++ [Clear;
                  Update (map CStr expected_columns
                          :: map (canonical_row cols) (kept_rows edited_df))])
             (page w ++ [Success saved_message])
             (geo_queries w)).
Proof.
  intros Hc Hr. unfold save_changes, try_except, bind, lift.
  rewrite (save_df_of_view cols edited_df Hc Hr).
  cbn [str_truthy]. rewrite update_values_of_rows.
  unfold sheet_clear, sheet_update, st_success, show, st_rerun, raise.
  cbn [sheet sheet_calls page geo_queries].
  rewrite overlay_nil, <- app_assoc. reflexivity.
Qed.

(** With search words the save writes nothing, whatever it is given. *)
Lemma save_changes_filtered_sheet (q : string) (any_df : DataFrame)
    (w : World) :
  str_truthy q = true ->
  sheet (snd (save_changes q any_df w)) = sheet w
  /\ sheet_calls (snd (save_changes q any_df w)) = sheet_calls w.
Proof.
  intros Hq. unfold save_changes, try_except, bind, lift.
  destruct (save_df_of any_df) as [save_df|[e|]]; rewrite ?Hq;
    split; reflexivity.
Qed.

Lemma canonical_row_unchanged (r : list cell) :
  length r = 9 -> forallb (fun v => negb (isna v)) r = true ->
  canonical_row expected_columns r = r.
Proof.
  intros Hlen Hna.
  do 9 (destruct r as [|? r]; [discriminate Hlen|]).
  destruct r; [|discriminate Hlen].
  cbn in Hna. repeat rewrite andb_true_iff in Hna.
  repeat rewrite negb_true_iff in Hna.
  unfold canonical_row. cbn. unfold fillna_cell.
  repeat match goal with
         | H : _ /\ _ |- _ => destruct H
         end.
  repeat match goal with
         | H : isna _ = false |- _ => rewrite H; clear H
         end.
  reflexivity.
Qed.

(* ===================================================================== *)
(** ** Save while a filter is on *)
(* ===================================================================== *)

(** C1: whatever the loaded table, and whatever view of it under
    non-empty search words the editor hands back, the save only shows the
    filter-active warning: it returns without a call on the sheet, the
    sheet is as it was.  (Nor is there a call on the sheet for any other
    frame handed to the save under non-empty search words.) *)
Theorem save_refused_while_filtering
    (float_repr : float -> string)
    (re_compile_ignorecase : string -> option (string -> bool))
    (df edit_df edited_df : DataFrame) (search_query : string) (w : World) :
  search_query <> "" ->
  make_edit_df float_repr re_compile_ignorecase df search_query
  = Returned edit_df ->
  data_editor_returns edit_df edited_df = true ->
  save_changes search_query edited_df w
  = (Returned tt,
     mkWorld (sheet w) (sheet_calls w)
             (page w ++ [Warning filter_active_message]) (geo_queries w))
  /\ (forall any_df : DataFrame,
         sheet (snd (save_changes search_query any_df w)) = sheet w
         /\ sheet_calls (snd (save_changes search_query any_df w))
            = sheet_calls w).
Proof.
  intros Hq Hview Hed.
  pose proof (make_edit_df_columns _ _ _ _ _ Hview) as Hc.
  destruct (data_editor_rows _ _ _ Hc Hed) as [Hc' Hr].
  apply str_truthy_true in Hq. split.
  - unfold save_changes, try_except, bind, lift.
    rewrite (save_df_of_view _ _ Hc' Hr), Hq. reflexivity.
  - intros any_df. now apply save_changes_filtered_sheet.
Qed.

Lemma save_refused_while_filtering_witness :
  "ラーメン" <> ""
  /\ make_edit_df sample_float_repr sample_matcher (load_data sample_records)
                  "ラーメン" = Returned ramen_view
  /\ data_editor_returns ramen_view ramen_view = true
  /\ save_changes "ラーメン" ramen_view sample_world
     = (Returned tt,
        mkWorld (sheet sample_world) (sheet_calls sample_world)
                (page sample_world ++ [Warning filter_active_message])
                (geo_queries sample_world)).
Proof.
  assert (H1 : "ラーメン" <> "") by discriminate.
  assert (H2 : make_edit_df sample_float_repr sample_matcher
                 (load_data sample_records) "ラーメン" = Returned ramen_view)
    by reflexivity.
  assert (H3 : data_editor_returns ramen_view ramen_view = true)
    by reflexivity.
  split; [exact H1|]. split; [exact H2|]. split; [exact H3|].
  exact (proj1 (save_refused_while_filtering sample_float_repr sample_matcher
                  (load_data sample_records) ramen_view ramen_view "ラーメン"
                  sample_world H1 H2 H3)).
Defined.

(* ===================================================================== *)
(** ** Save with no filter *)
(* ===================================================================== *)

Lemma kept_rows_of_flags (flagged : list (bool * list cell)) :
  map (@tl cell)
      (filter (fun r => negb (deletion_flag r))
              (map (fun br => CBool (fst br) :: snd br) flagged))
  = map snd (filter (fun br => negb (fst br)) flagged).
Proof.
  induction flagged as [|[b r] l IH]; cbn; [reflexivity|].
  destruct b; cbn; now rewrite IH.
Qed.

(** C2: for every loaded table and the view of it under no search words,
    as the editor hands it back, the save succeeds (success message, then
    the rerun) and leaves in the sheet the header of the nine expected
    columns followed by exactly the rows of the view that are not flagged,
    in the view's order, each with its cells under the nine expected
    labels in their fixed order.  When the user only ticked flags, these
    are the unflagged rows of the table in the table's order; when the
    table has the expected columns and the kept rows no missing value,
    they are written as they are. *)
Theorem save_writes_kept_rows
    (float_repr : float -> string)
    (re_compile_ignorecase : string -> option (string -> bool))
    (df edit_df edited_df : DataFrame) (w : World) :
  make_edit_df float_repr re_compile_ignorecase df "" = Returned edit_df ->
  data_editor_returns edit_df edited_df = true ->
  save_changes "" edited_df w
  = (Raised RerunException,
     mkWorld (map CStr expected_columns
              :: map (canonical_row (columns df)) (kept_rows edited_df))
             (sheet_calls w
              ++ [Clear;
                  Update (map CStr expected_columns
                          :: map (canonical_row (columns df))
                                 (kept_rows edited_df))])
             (page w ++ [Success saved_message])
             (geo_queries w))
  /\ (forall flags : list bool,
         rows edited_df
         = map (fun br => CBool (fst br) :: snd br) (combine flags (rows df)) ->
         kept_rows edited_df
         = map snd (filter (fun br => negb (fst br)) (combine flags (rows df))))
  /\ (columns df = expected_columns ->
      Forall (fun r => length r = 9
                       /\ forallb (fun v => negb (isna v)) r = true)
             (kept_rows edited_df) ->
      map (canonical_row (columns df)) (kept_rows edited_df)
      = kept_rows edited_df).
Proof.
  intros Hview Hed.
  pose proof (make_edit_df_columns _ _ _ _ _ Hview) as Hc.
  destruct (data_editor_rows _ _ _ Hc Hed) as [Hc' Hr].
  split; [now apply save_changes_unfiltered|]. split.
  - intros flags Hrows. unfold kept_rows. rewrite Hrows.
    apply kept_rows_of_flags.
  - intros Hcols Hclean. rewrite Hcols.
    rewrite <- (map_id (kept_rows edited_df)) at 2.
    apply map_ext_in. intros r Hin.
    rewrite Forall_forall in Hclean. destruct (Hclean r Hin) as [Hlen Hna].
    now apply canonical_row_unchanged.
Qed.

Lemma save_writes_kept_rows_witness :
  make_edit_df sample_float_repr sample_matcher (load_data sample_records) ""
  = Returned (mkDF ("削除" :: expected_columns)
                   (map (cons (CBool false)) (rows (load_data sample_records))))
  /\ data_editor_returns
       (mkDF ("削除" :: expected_columns)
             (map (cons (CBool false)) (rows (load_data sample_records))))
       flagged_view = true
  /\ save_changes "" flagged_view sample_world
     = (Raised RerunException,
        mkWorld
          [map CStr expected_columns;
           sample_row "麺屋A" "ラーメン" "北口" 4 "立川市曙町2-1-1" 35.5 139.25;
           sample_row "酒場C" "居酒屋" "駅ナカ" 5 "立川市柴崎町3-1-2" 35.75 139.75]
          [Clear;
           Update
             [map CStr expected_columns;
              sample_row "麺屋A" "ラーメン" "北口" 4 "立川市曙町2-1-1" 35.5 139.25;
              sample_row "酒場C" "居酒屋" "駅ナカ" 5 "立川市柴崎町3-1-2" 35.75
                139.75]]
          [Success saved_message] []).
Proof.
  assert (H1 : make_edit_df sample_float_repr sample_matcher
                 (load_data sample_records) ""
               = Returned (mkDF ("削除" :: expected_columns)
                                (map (cons (CBool false))
                                     (rows (load_data sample_records)))))
    by reflexivity.
  assert (H2 : data_editor_returns
                 (mkDF ("削除" :: expected_columns)
                       (map (cons (CBool false))
                            (rows (load_data sample_records))))
                 flagged_view = true) by reflexivity.
  split; [exact H1|]. split; [exact H2|].
  destruct (save_writes_kept_rows sample_float_repr sample_matcher
              (load_data sample_records) _ flagged_view sample_world H1 H2)
    as [Hsave _].
  rewrite Hsave. reflexivity.
Defined.

(* ===================================================================== *)
(** ** Save and the rules of the columns *)
(* ===================================================================== *)

(** C3, as stated, fails: a kept row rated 6 breaks the rule of the
    rating column, yet the save with no search words goes through and
    rewrites the sheet with that row in it. *)
Lemma save_writes_rating_six :
  make_edit_df sample_float_repr sample_matcher (load_data rating6_records) ""
  = Returned rating6_edit_df
  /\ data_editor_returns rating6_edit_df rating6_view = true
  /\ column_config_ok expected_columns
       (sample_row "麺屋A" "ラーメン" "南口" 6 "立川市曙町2-1-1" 35.5 139.25)
     = false
  /\ save_changes "" rating6_view rating6_world
     = (Raised RerunException,
        mkWorld
          [map CStr expected_columns;
           sample_row "麺屋A" "ラーメン" "南口" 6 "立川市曙町2-1-1" 35.5 139.25]
          [Clear;
           Update
             [map CStr expected_columns;
              sample_row "麺屋A" "ラーメン" "南口" 6 "立川市曙町2-1-1" 35.5 139.25]]
          [Success saved_message] [])
  /\ sheet (snd (save_changes "" rating6_view rating6_world))
     <> sheet rating6_world.
Proof.
  split; [reflexivity|]. split; [reflexivity|]. split; [reflexivity|].
  split; [reflexivity|]. vm_compute. discriminate.
Qed.

(** C3, amended: on a save with no search words the handler checks no
    field of the kept rows.  For every loaded table and every view of it
    handed back by the editor, the save goes through (success message,
    then the rerun; no error is shown) and every kept row is written,
    also one that breaks the rules the editor's columns are configured
    with (name required, genre and area from their lists, rating a whole
    number from 1 to 5). *)
Theorem save_does_not_validate
    (float_repr : float -> string)
    (re_compile_ignorecase : string -> option (string -> bool))
    (df edit_df edited_df : DataFrame) (w : World) :
  make_edit_df float_repr re_compile_ignorecase df "" = Returned edit_df ->
  data_editor_returns edit_df edited_df = true ->
  fst (save_changes "" edited_df w) = Raised RerunException
  /\ page (snd (save_changes "" edited_df w))
     = page w ++ [Success saved_message]
  /\ (forall r : list cell,
         In r (kept_rows edited_df) ->
         column_config_ok (columns df) r = false ->
         In (canonical_row (columns df) r)
            (sheet (snd (save_changes "" edited_df w)))).
Proof.
  intros Hview Hed.
  pose proof (make_edit_df_columns _ _ _ _ _ Hview) as Hc.
  destruct (data_editor_rows _ _ _ Hc Hed) as [Hc' Hr].
  rewrite (save_changes_unfiltered _ _ w Hc' Hr). cbn [fst snd page sheet].
  split; [reflexivity|]. split; [reflexivity|].
  intros r Hin _. right. now apply in_map.
Qed.

Lemma save_does_not_validate_witness :
  make_edit_df sample_float_repr sample_matcher (load_data rating6_records) ""
  = Returned rating6_edit_df
  /\ data_editor_returns rating6_edit_df rating6_view = true
  /\ In (canonical_row (columns (load_data rating6_records))
           (sample_row "麺屋A" "ラーメン" "南口" 6 "立川市曙町2-1-1" 35.5 139.25))
        (sheet (snd (save_changes "" rating6_view rating6_world))).
Proof.
  assert (H1 : make_edit_df sample_float_repr sample_matcher
                 (load_data rating6_records) "" = Returned rating6_edit_df)
    by reflexivity.
  assert (H2 : data_editor_returns rating6_edit_df rating6_view = true)
    by reflexivity.
  split; [exact H1|]. split; [exact H2|].
  destruct (save_does_not_validate sample_float_repr sample_matcher
              (load_data rating6_records) rating6_edit_df rating6_view
              rating6_world H1 H2) as [_ [_ Hrows]].
  apply Hrows.
  - left. reflexivity.
  - reflexivity.
Defined.

(* ===================================================================== *)
(** ** The address lookup, query by query *)
(* ===================================================================== *)

Lemma length_append (s t : string) :
  String.length (s ++ t) = String.length s + String.length t.
Proof. induction s as [|a s IH]; cbn; [reflexivity | now rewrite IH]. Qed.

Lemma prefixed_differs (p s : string) :
  p <> "" -> String.eqb (p ++ s) s = false.
Proof.
  intros Hp. apply String.eqb_neq. intros H.
  apply (f_equal String.length) in H. rewrite length_append in H.
  destruct p; [contradiction|]. cbn in H. lia.
Qed.

Lemma geocode_address_run (g : Geocoder) (address : string) (w : World) :
  geocode_address g address w
  = (reply_outcome (lookup_reply g address),
     add_queries w (queries_sent g address)).
Proof.
  unfold geocode_address, bind, geocode, lookup_reply, queries_sent,
    retry_query, search_word_of, add_queries, ret.
  destruct (g address) as [|loc|e]; cbn [reply_outcome]; try reflexivity.
  destruct (str_in "立川" address); cbn [negb].
  - destruct (str_in "東京都" address); cbn [negb].
    + rewrite String.eqb_refl. reflexivity.
    + rewrite prefixed_differs by discriminate.
      cbn [negb sheet page geo_queries]. rewrite <- app_assoc.
      now destruct (g _).
  - rewrite prefixed_differs by discriminate.
    cbn [negb sheet page geo_queries]. rewrite <- app_assoc.
    now destruct (g _).
Qed.

Lemma locate_run (geopy : option Geocoder) (address : string)
    (lat_val lon_val : cell) (w : World) :
  let r := located geopy address lat_val lon_val in
  locate geopy address lat_val lon_val w
  = (Returned (new_lat r, new_lon r),
     mkWorld (sheet w) (sheet_calls w) (page w ++ shown r)
             (geo_queries w ++ sent r)).
Proof.
  destruct w as [sh pg qs].
  unfold locate, located. destruct geopy as [g|].
  - destruct (negb (truthy lat_val) && str_truthy address).
    + unfold try_except, bind. rewrite geocode_address_run.
      destruct (lookup_reply g address) as [|loc|e]; reflexivity.
    + cbn. now rewrite !app_nil_r.
  - cbn. now rewrite !app_nil_r.
Qed.

Lemma register_run (geopy : option Geocoder) (timestamp : string) (f : Form)
    (w : World) :
  name f <> "" ->
  let r := located geopy (address f) (CStr (lat_input f)) (CStr (lon_input f)) in
  register geopy timestamp f w
  = (Returned tt,
     mkWorld (sheet w ++ [new_row f timestamp (or_blank (new_lat r))
                                  (or_blank (new_lon r))])
             (sheet_calls w
              ++ [AppendRow (new_row f timestamp (or_blank (new_lat r))
                                     (or_blank (new_lon r)))])
             (page w ++ shown r
                ++ [Success ("「" ++ name f ++ "」を登録しました！")%string;
                    Balloons])
             (geo_queries w ++ sent r)).
Proof.
  intros Hname r. unfold register.
  destruct (name f) as [|a n] eqn:En; [contradiction|]. cbn [str_truthy negb].
  unfold try_except, bind. rewrite locate_run. cbv zeta. fold r.
  unfold sheet_append_row, st_success, st_balloons, show, new_row, or_blank.
  cbn [sheet sheet_calls page geo_queries]. rewrite En.
  rewrite <- !app_assoc. reflexivity.
Qed.

Lemma sent_located (g : Geocoder) (address : string) (lat_val lon_val : cell) :
  sent (located (Some g) address lat_val lon_val)
  = if negb (truthy lat_val) && str_truthy address
    then queries_sent g address else [].
Proof.
  unfold located.
  destruct (negb (truthy lat_val) && str_truthy address); [|reflexivity].
  now destruct (lookup_reply g address).
Qed.

(* ===================================================================== *)
(** ** The address lookup: which queries are sent *)
(* ===================================================================== *)

(** C6: with a geocoder at hand and no latitude typed, the lookup of an
    empty address returns at once, nothing sent, nothing shown, the
    coordinates as they were.  For any other address the first query is
    the address as typed; a second query follows only when the first found
    nothing, and then it is 東京都立川市 and a space put before the address
    when the address does not contain 立川, else 東京都 and a space put
    before it when it does not contain 東京都, else (nothing to put in
    front: the words would be the address again) there is none. *)
Theorem locate_queries (g : Geocoder) (address : string) (lon_val : cell)
    (w : World) :
  locate (Some g) "" (CStr "") lon_val w = (Returned (CStr "", lon_val), w)
  /\ geo_queries (snd (locate (Some g) address (CStr "") lon_val w))
     = geo_queries w
       ++ (if str_truthy address then
             address
             :: match g address with
                | NoResult =>
                    if negb (str_in "立川" address)
                    then ["東京都立川市 " ++ address]%string
                    else if negb (str_in "東京都" address)
                         then ["東京都 " ++ address]%string
                         else []
                | _ => []
                end
           else []).
Proof.
  split.
  - destruct w. reflexivity.
  - rewrite locate_run. cbv zeta. cbn [snd geo_queries].
    rewrite sent_located. cbn [truthy str_truthy negb andb].
    destruct (str_truthy address); [|reflexivity].
    unfold queries_sent, retry_query.
    destruct (g address); try reflexivity.
    destruct (str_in "立川" address); [|reflexivity].
    now destruct (str_in "東京都" address).
Qed.

(** C7, as stated, fails: 立川駅 contains 立川, and when the first query
    finds nothing a second one, 東京都 put in front, is sent. *)
Lemma station_query_retried :
  str_in "立川" "立川駅" = true
  /\ geo_queries (snd (locate (Some nothing_found) "立川駅" (CStr "") (CStr "")
                              no_world))
     = ["立川駅"; "東京都 立川駅"]
  /\ geo_queries
       (snd (register (Some nothing_found) "2024-01-01 10:00"
               (mkForm "立川食堂" Washoku Kitaguchi 3 "" "立川駅" "" "")
               no_world))
     = ["立川駅"; "東京都 立川駅"].
Proof. repeat split. Qed.

(** C7, amended: for every address that already contains both 立川 and
    東京都, the lookup sends one query only, the address as typed, also
    when it finds nothing.  (An address with 立川 but without 東京都 gets
    its second query, see C6.) *)
Theorem qualified_address_single_query (g : Geocoder) (address : string)
    (lon_val : cell) (w : World) :
  str_in "立川" address = true ->
  str_in "東京都" address = true ->
  geo_queries (snd (locate (Some g) address (CStr "") lon_val w))
  = geo_queries w ++ [address].
Proof.
  intros Hcity Hregion. rewrite locate_run. cbv zeta. cbn [snd geo_queries].
  rewrite sent_located. cbn [truthy str_truthy negb andb].
  destruct address as [|a s]; [discriminate Hcity|]. cbn [str_truthy].
  unfold queries_sent, retry_query. rewrite Hcity, Hregion. cbn [negb].
  now destruct (g (String a s)).
Qed.

Lemma qualified_address_single_query_witness :
  str_in "立川" "東京都立川市曙町2-1-1" = true
  /\ str_in "東京都" "東京都立川市曙町2-1-1" = true
  /\ geo_queries (snd (locate (Some nothing_found) "東京都立川市曙町2-1-1"
                              (CStr "") (CStr "") no_world))
     = geo_queries no_world ++ ["東京都立川市曙町2-1-1"].
Proof.
  split; [reflexivity|]. split; [reflexivity|].
  apply (qualified_address_single_query nothing_found "東京都立川市曙町2-1-1"
           (CStr "") no_world); reflexivity.
Defined.

(* ===================================================================== *)
(** ** The form: the name is required *)
(* ===================================================================== *)

(** C8: a form submitted with an empty name is turned down with the
    warning that the name is required; nothing is appended to the sheet
    and no query is sent to the geocoder. *)
Theorem register_requires_name (geopy : option Geocoder) (timestamp : string)
    (f : Form) (w : World) :
  name f = "" ->
  register geopy timestamp f w
  = (Returned tt,
     mkWorld (sheet w) (sheet_calls w) (page w ++ [Warning "店名は必須です！"])
             (geo_queries w)).
Proof.
  intros Hname. unfold register. rewrite Hname. reflexivity.
Qed.

Lemma register_requires_name_witness :
  register (Some station_only) "2024-01-01 10:00"
    (mkForm "" Ramen Kitaguchi 3 "" "立川駅" "" "") sample_world
  = (Returned tt,
     mkWorld (sheet sample_world) (sheet_calls sample_world)
             (page sample_world ++ [Warning "店名は必須です！"])
             (geo_queries sample_world)).
Proof.
  apply (register_requires_name (Some station_only) "2024-01-01 10:00"
           (mkForm "" Ramen Kitaguchi 3 "" "立川駅" "" "") sample_world).
  reflexivity.
Defined.

(* ===================================================================== *)
(** ** The form: a venue without coordinates *)
(* ===================================================================== *)

(** C9: for every form with a name and no coordinates typed, when the
    address is empty or the lookup of this address (if there is a
    geocoder) ends on no location, be it that nothing is found for it or
    that the service fails, the registration still goes through: it
    returns normally, shows its success message, and the row appended to
    the sheet has the empty string for latitude and for longitude. *)
Theorem register_without_coordinates (geopy : option Geocoder)
    (timestamp : string) (f : Form) (w : World) :
  name f <> "" ->
  lat_input f = "" ->
  lon_input f = "" ->
  (address f = ""
   \/ forall g, geopy = Some g ->
                forall loc, lookup_reply g (address f) <> Found loc) ->
  fst (register geopy timestamp f w) = Returned tt
  /\ sheet (snd (register geopy timestamp f w))
     = sheet w ++ [new_row f timestamp (CStr "") (CStr "")]
  /\ sheet_calls (snd (register geopy timestamp f w))
     = sheet_calls w ++ [AppendRow (new_row f timestamp (CStr "") (CStr ""))]
  /\ exists shown_before,
       page (snd (register geopy timestamp f w))
       = page w ++ shown_before
         ++ [Success ("「" ++ name f ++ "」を登録しました！")%string; Balloons].
Proof.
  intros Hname Hlat Hlon Hnone.
  rewrite (register_run geopy timestamp f w Hname). cbv zeta.
  cbn [fst snd sheet sheet_calls page]. rewrite Hlat, Hlon.
  split; [reflexivity|].
  assert (Hr : new_lat (located geopy (address f) (CStr "") (CStr "")) = CStr ""
               /\ new_lon (located geopy (address f) (CStr "") (CStr ""))
                  = CStr "").
  { unfold located. destruct geopy as [g|]; [|split; reflexivity].
    cbn [truthy str_truthy negb andb].
    destruct (str_truthy (address f)) eqn:Ea; [|split; reflexivity].
    destruct Hnone as [Hempty | Hnone].
    - rewrite Hempty in Ea. discriminate.
    - pose proof (Hnone g eq_refl) as Hn.
      destruct (lookup_reply g (address f)) as [|loc|e];
        [split; reflexivity | | split; reflexivity].
      exfalso. now apply (Hn loc). }
  destruct Hr as [-> ->]. split; [reflexivity|]. split; [reflexivity|].
  eexists. reflexivity.
Qed.

Lemma register_without_coordinates_witness :
  sheet (snd (register (Some station_only) "2024-01-01 10:00"
                (mkForm "立川食堂" Washoku Kitaguchi 3 "" "xyz" "" "")
                sample_world))
  = sheet sample_world
    ++ [[CStr "立川食堂"; CStr "和食"; CStr "北口"; CInt 3; CStr "";
         CStr "xyz"; CStr "2024-01-01 10:00"; CStr ""; CStr ""]]
  /\ sheet (snd (register (Some out_of_service) "2024-01-01 10:00"
                   (mkForm "立川食堂" Washoku Kitaguchi 3 "" "立川駅" "" "")
                   sample_world))
     = sheet sample_world
       ++ [[CStr "立川食堂"; CStr "和食"; CStr "北口"; CInt 3; CStr "";
            CStr "立川駅"; CStr "2024-01-01 10:00"; CStr ""; CStr ""]].
Proof.
  split.
  - apply (register_without_coordinates (Some station_only) "2024-01-01 10:00"
             (mkForm "立川食堂" Washoku Kitaguchi 3 "" "xyz" "" "")
             sample_world).
    + discriminate.
    + reflexivity.
    + reflexivity.
    + right. intros g Hg loc H. injection Hg as <-.
      vm_compute in H. discriminate H.
  - apply (register_without_coordinates (Some out_of_service) "2024-01-01 10:00"
             (mkForm "立川食堂" Washoku Kitaguchi 3 "" "立川駅" "" "")
             sample_world).
    + discriminate.
    + reflexivity.
    + reflexivity.
    + right. intros g Hg loc H. injection Hg as <-. discriminate H.
Defined.

(* ===================================================================== *)
(** ** The form: when the geocoder is asked *)
(* ===================================================================== *)

(** C10: for every form with a name, a geocoder being at hand, a query is
    sent exactly when the latitude field is empty and the address is not;
    the queries sent are the same whatever the longitude field holds.  So
    with only a longitude typed the address is looked up, and when the
    lookup ends on a location the row's coordinates are that location's
    (the typed longitude is gone); with only a latitude typed nothing is
    looked up and the row has the typed latitude and an empty
    longitude. *)
Theorem geocoding_decision (g : Geocoder) (timestamp : string) (f : Form)
    (w : World) :
  name f <> "" ->
  (geo_queries (snd (register (Some g) timestamp f w)) <> geo_queries w
   <-> lat_input f = "" /\ address f <> "")
  /\ (forall lon,
         geo_queries (snd (register (Some g) timestamp (set_lon_input f lon) w))
         = geo_queries (snd (register (Some g) timestamp f w)))
  /\ (lat_input f = "" -> address f <> "" ->
      forall loc, lookup_reply g (address f) = Found loc ->
      sheet (snd (register (Some g) timestamp f w))
      = sheet w ++ [new_row f timestamp (or_blank (CFloat (latitude loc)))
                                        (or_blank (CFloat (longitude loc)))])
  /\ (lat_input f <> "" -> lon_input f = "" ->
      geo_queries (snd (register (Some g) timestamp f w)) = geo_queries w
      /\ sheet (snd (register (Some g) timestamp f w))
         = sheet w ++ [new_row f timestamp (CStr (lat_input f)) (CStr "")]).
Proof.
  intros Hname.
  rewrite (register_run (Some g) timestamp f w Hname). cbv zeta.
  cbn [snd geo_queries sheet].
  split; [|split; [|split]].
  - rewrite sent_located. cbn [truthy].
    destruct (str_truthy (lat_input f)) eqn:El; cbn [negb andb].
    + apply str_truthy_true in El. rewrite app_nil_r. split.
      * intros H. now contradiction H.
      * intros [H _]. contradiction.
    + apply str_truthy_false in El.
      destruct (str_truthy (address f)) eqn:Ea.
      * apply str_truthy_true in Ea. split; [now split|].
        intros _ H. rewrite <- (app_nil_r (geo_queries w)) in H at 2.
        apply app_inv_head in H. discriminate H.
      * apply str_truthy_false in Ea. rewrite app_nil_r. split.
        -- intros H. now contradiction H.
        -- intros [_ H]. contradiction.
  - intros lon.
    rewrite (register_run (Some g) timestamp (set_lon_input f lon) w Hname).
    cbv zeta. cbn [snd geo_queries set_lon_input address lat_input lon_input].
    now rewrite !sent_located.
  - intros Hlat Haddr loc Hloc. unfold located.
    rewrite Hlat. cbn [truthy str_truthy negb andb].
    apply str_truthy_true in Haddr. rewrite Haddr, Hloc. reflexivity.
  - intros Hlat Hlon. unfold located. cbn [truthy].
    apply str_truthy_true in Hlat. rewrite Hlat, Hlon.
    cbn [negb andb new_lat new_lon sent]. rewrite app_nil_r.
    split; [reflexivity|]. unfold or_blank. cbn [truthy str_truthy].
    now rewrite Hlat.
Qed.

Lemma geocoding_decision_witness :
  "立川食堂" <> ""
  /\ sheet (snd (register (Some station_only) "2024-01-01 10:00"
                   (mkForm "立川食堂" Washoku Kitaguchi 3 "" "立川駅" "" "139.0")
                   no_world))
     = [[CStr "立川食堂"; CStr "和食"; CStr "北口"; CInt 3; CStr "";
         CStr "立川駅"; CStr "2024-01-01 10:00"; CFloat 35.5; CFloat 139.25]].
Proof.
  assert (H1 : "立川食堂" <> "") by discriminate.
  split; [exact H1|].
  destruct (geocoding_decision station_only "2024-01-01 10:00"
              (mkForm "立川食堂" Washoku Kitaguchi 3 "" "立川駅" "" "139.0")
              no_world H1) as [_ [_ [Hfound _]]].
  assert (H2 : "立川駅" <> "") by discriminate.
  exact (Hfound eq_refl H2
           (mkLocation "立川駅, 立川市, 東京都, 日本" 35.5 139.25) eq_refl).
Defined.

(* ===================================================================== *)
(** ** More on the load *)
(* ===================================================================== *)

Lemma label_in_or_missing (cols wanted : list string) (c : string) :
  In c wanted -> label_in c (cols ++ missing_of cols wanted) = true.
Proof.
  intros Hin. rewrite label_in_app.
  destruct (label_in c cols) eqn:E; [reflexivity|]. cbn.
  apply label_in_In. unfold missing_of. apply filter_In.
  split; [assumption | now rewrite E].
Qed.

(** X1: whatever the records of the sheet, also none at all or none with
    these labels, the loaded table has the columns 緯度, 経度 and 住所. *)
Theorem load_data_has_geo_columns (data : list record) :
  label_in "緯度" (columns (load_data data)) = true
  /\ label_in "経度" (columns (load_data data)) = true
  /\ label_in "住所" (columns (load_data data)) = true.
Proof.
  rewrite load_data_frame. cbv zeta.
  destruct (df_empty (DataFrame_of_records data)).
  - repeat split.
  - cbn [columns].
    repeat split; apply label_in_or_missing; cbn; tauto.
Qed.

(** X2: the load loses no record and keeps the table rectangular: the
    loaded table has one row per record (none when the records have no
    label at all), and every row has one cell per column. *)
Theorem load_data_shape (data : list record) :
  aligned (load_data data)
  /\ length (rows (load_data data))
     = if df_empty (DataFrame_of_records data) then 0 else length data.
Proof.
  rewrite load_data_frame. cbv zeta.
  destruct (df_empty (DataFrame_of_records data)).
  - split; [constructor | reflexivity].
  - unfold aligned. cbn [columns rows DataFrame_of_records].
    split.
    + apply Forall_forall. intros r Hr.
      apply in_map_iff in Hr. destruct Hr as [r0 [<- Hr0]].
      apply in_map_iff in Hr0. destruct Hr0 as [d [<- _]].
      now rewrite !length_app, repeat_length, length_map.
    + now rewrite !length_map.
Qed.

(* ===================================================================== *)
(** ** More on the editable copy *)
(* ===================================================================== *)

Lemma filter_all {A} (l : list A) : filter (fun _ => true) l = l.
Proof. induction l as [|x l IH]; cbn; [reflexivity | now rewrite IH]. Qed.

Section ViewProperties.

Variable float_repr : float -> string.
Variable re_compile_ignorecase : string -> option (string -> bool).

Lemma make_edit_df_cases (df : DataFrame) (q : string) :
  make_edit_df float_repr re_compile_ignorecase df q
  = if label_in "削除" (columns df)
    then Raised (Exception "cannot insert 削除, already exists")
    else if str_truthy q then
           match re_compile_ignorecase q with
           | None => Raised (Exception "re.error")
           | Some contains =>
               Returned
                 (mkDF ("削除" :: columns df)
                       (filter (fun r => existsb (fun c => contains (py_str float_repr c)) r)
                               (map (cons (CBool false)) (rows df))))
           end
         else Returned (mkDF ("削除" :: columns df)
                             (map (cons (CBool false)) (rows df))).
Proof.
  unfold make_edit_df, df_insert.
  destruct (label_in "削除" (columns df)); [reflexivity|].
  destruct (str_truthy q); [|reflexivity].
  now destruct (re_compile_ignorecase q).
Qed.

Lemma make_edit_df_raises (df : DataFrame) (q : string) :
  label_in "削除" (columns df) = true ->
  make_edit_df float_repr re_compile_ignorecase df q
  = Raised (Exception "cannot insert 削除, already exists").
Proof.
  intros H. unfold make_edit_df, df_insert. rewrite H. reflexivity.
Qed.

Lemma make_edit_df_whole (df : DataFrame) :
  label_in "削除" (columns df) = false ->
  make_edit_df float_repr re_compile_ignorecase df ""
  = Returned (mkDF ("削除" :: columns df) (map (cons (CBool false)) (rows df))).
Proof.
  intros H. unfold make_edit_df, df_insert. rewrite H. reflexivity.
Qed.

Lemma load_data_keeps_label (data : list record) (d : record) (c : string)
    (v : cell) :
  In d data -> dict_get d c = Some v ->
  label_in c (columns (load_data data)) = true.
Proof.
  intros Hin Hget. rewrite load_data_frame. cbv zeta.
  pose proof (union_keys_has data [] d c v Hin Hget) as Hc.
  unfold df_empty. cbn [columns rows DataFrame_of_records].
  destruct (union_keys [] data) as [|c0 cols] eqn:Ek; [discriminate Hc|].
  destruct data as [|d0 data']; [contradiction|].
  cbn [map columns]. rewrite label_in_app, Hc. reflexivity.
Qed.

(** X3: a sheet one of whose records has a label 削除 cannot be opened
    for editing: the load keeps that column, and the insertion of the
    deletion column in front of the copy raises, whatever the search
    words. *)
Theorem flag_named_column_blocks_editing (data : list record) (d : record)
    (v : cell) (q : string) :
  In d data -> dict_get d "削除" = Some v ->
  make_edit_df float_repr re_compile_ignorecase (load_data data) q
  = Raised (Exception "cannot insert 削除, already exists").
Proof.
  intros Hin Hget. apply make_edit_df_raises.
  eapply load_data_keeps_label; eassumption.
Qed.

(** X4: the editable copy never invents or alters a row: its columns are
    the deletion column followed by the table's, and its rows are rows of
    the table, in the table's order, each with an unticked flag in
    front (all of them when there are no search words). *)
Theorem edit_df_rows_of_table (df view : DataFrame) (q : string) :
  make_edit_df float_repr re_compile_ignorecase df q = Returned view ->
  columns view = "削除" :: columns df
  /\ (exists keep : list cell -> bool,
         rows view = map (cons (CBool false)) (filter keep (rows df)))
  /\ (q = "" -> rows view = map (cons (CBool false)) (rows df)).
Proof.
  rewrite make_edit_df_cases.
  destruct (label_in "削除" (columns df)); [discriminate|].
  destruct (str_truthy q) eqn:Eq.
  - destruct (re_compile_ignorecase q) as [contains|]; [|discriminate].
    intros H. injection H as <-. cbn [columns rows].
    split; [reflexivity|]. split.
    + exists (fun r => existsb (fun c => contains (py_str float_repr c))
                               (CBool false :: r)).
      induction (rows df) as [|r rs IH]; [reflexivity|].
      cbn [map filter].
      destruct (existsb _ (CBool false :: r)); cbn [map]; now rewrite IH.
    + intros ->. discriminate Eq.
  - intros H. injection H as <-. cbn [columns rows].
    split; [reflexivity|]. split; [|reflexivity].
    exists (fun _ => true). now rewrite filter_all.
Qed.

(** X5: the search runs over the deletion column too, whose cells read
    [False]: search words that match the text False keep every row, so
    the filtered copy is the whole copy. *)
Theorem search_matching_flag_keeps_all (df : DataFrame) (q : string)
    (contains : string -> bool) :
  label_in "削除" (columns df) = false ->
  re_compile_ignorecase q = Some contains ->
  contains "False" = true ->
  make_edit_df float_repr re_compile_ignorecase df q
  = Returned (mkDF ("削除" :: columns df) (map (cons (CBool false)) (rows df))).
Proof.
  intros Hcol Hre Hfalse. rewrite make_edit_df_cases, Hcol, Hre.
  assert (Hall : filter (fun r => existsb (fun c => contains (py_str float_repr c)) r)
                        (map (cons (CBool false)) (rows df))
                 = map (cons (CBool false)) (rows df)).
  { induction (rows df) as [|r rs IH]; [reflexivity|].
    cbn [map filter existsb py_str]. rewrite Hfalse. cbn [orb].
    now rewrite IH. }
  rewrite Hall. now destruct (str_truthy q).
Qed.

End ViewProperties.

Lemma edit_df_rows_of_table_witness :
  make_edit_df sample_float_repr sample_matcher (load_data sample_records)
               "ラーメン" = Returned ramen_view
  /\ columns ramen_view = "削除" :: columns (load_data sample_records).
Proof.
  assert (H : make_edit_df sample_float_repr sample_matcher
                (load_data sample_records) "ラーメン" = Returned ramen_view)
    by reflexivity.
  split; [exact H|].
  exact (proj1 (edit_df_rows_of_table sample_float_repr sample_matcher
                  (load_data sample_records) ramen_view "ラーメン" H)).
Defined.

Lemma flag_named_column_blocks_editing_witness :
  make_edit_df sample_float_repr sample_matcher (load_data flag_named_records)
               "ラーメン"
  = Raised (Exception "cannot insert 削除, already exists").
Proof.
  apply (flag_named_column_blocks_editing sample_float_repr sample_matcher
           flag_named_records [("店名", CStr "A"); ("削除", CStr "x")]
           (CStr "x") "ラーメン").
  - left. reflexivity.
  - reflexivity.
Defined.

Lemma search_matching_flag_keeps_all_witness :
  make_edit_df sample_float_repr sample_matcher (load_data sample_records) "als"
  = Returned (mkDF ("削除" :: columns (load_data sample_records))
                   (map (cons (CBool false)) (rows (load_data sample_records)))).
Proof.
  apply (search_matching_flag_keeps_all sample_float_repr sample_matcher
           (load_data sample_records) "als" (fun s => str_in "als" s));
    reflexivity.
Defined.

(* ===================================================================== *)
(** ** More on the save *)
(* ===================================================================== *)

Lemma invert_all_raises (i : nat) (rs : list (list cell)) :
  forallb (fun r => is_bool (nth i r NaN)) rs = false ->
  exists e, invert_all (map (fun r => nth i r NaN) rs) = Raised (Exception e).
Proof.
  induction rs as [|r rs IH]; cbn [forallb map invert_all]; intros H.
  - discriminate.
  - destruct (nth i r NaN) as [s|z|f|b|]; cbn [is_bool andb] in H;
      try (eexists; reflexivity).
    destruct (IH H) as [e He]. exists e. now rewrite He.
Qed.

Lemma save_df_of_raises (edited_df : DataFrame) :
  forallb (fun r => is_bool (cell_at (columns edited_df) r "削除"))
          (rows edited_df) = false ->
  exists e, save_df_of edited_df = Raised (Exception e).
Proof.
  intros H. unfold save_df_of, invert_column.
  unfold cell_at in H.
  destruct (get_loc "削除" (columns edited_df)) as [i|].
  - destruct (invert_all_raises i (rows edited_df) H) as [e He].
    exists e. now rewrite He.
  - eexists. reflexivity.
Qed.

(** X6: a frame some row of which has no boolean under 削除 (or which
    has no such column) is not saved: line 200 raises, the handler shows
    its error message and returns, and nothing is called on the sheet,
    with or without search words. *)
Theorem save_error_writes_nothing (search_query : string)
    (edited_df : DataFrame) (w : World) :
  forallb (fun r => is_bool (cell_at (columns edited_df) r "削除"))
          (rows edited_df) = false ->
  exists e,
    save_changes search_query edited_df w
    = (Returned tt, add_events w [Error ("保存エラー: " ++ e)%string]).
Proof.
  intros H. destruct (save_df_of_raises edited_df H) as [e He].
  exists e. unfold save_changes, try_except, bind, lift. rewrite He.
  reflexivity.
Qed.

Lemma save_error_writes_nothing_witness :
  exists e,
    save_changes "" (mkDF ("削除" :: expected_columns)
                          [CNone :: sample_row "麺屋A" "ラーメン" "北口" 4
                                      "立川市曙町2-1-1" 35.5 139.25])
                 sample_world
    = (Returned tt, add_events sample_world [Error ("保存エラー: " ++ e)%string]).
Proof.
  apply (save_error_writes_nothing ""
           (mkDF ("削除" :: expected_columns)
                 [CNone :: sample_row "麺屋A" "ラーメン" "北口" 4
                             "立川市曙町2-1-1" 35.5 139.25])
           sample_world).
  reflexivity.
Defined.

Lemma canonical_row_clean (cols : list string) (r : list cell) :
  length (canonical_row cols r) = 9
  /\ forallb (fun v => negb (isna v)) (canonical_row cols r) = true.
Proof.
  split; [reflexivity|].
  unfold canonical_row. apply forallb_forall. intros v Hv.
  apply in_map_iff in Hv. destruct Hv as [c [<- _]].
  now rewrite fillna_cell_filled.
Qed.

(** X7: column drift and missing values never reach the sheet.  Whatever
    frame and search words the save is given, either it calls nothing on
    the sheet, or it calls clear and then update and leaves in the sheet
    the header of the nine expected columns followed by rows of nine
    cells none of which is a missing value. *)
Theorem save_writes_only_canonical (search_query : string)
    (any_df : DataFrame) (w : World) :
  (sheet (snd (save_changes search_query any_df w)) = sheet w
   /\ sheet_calls (snd (save_changes search_query any_df w)) = sheet_calls w)
  \/ (exists written : list (list cell),
         sheet (snd (save_changes search_query any_df w))
         = map CStr expected_columns :: written
         /\ sheet_calls (snd (save_changes search_query any_df w))
            = sheet_calls w
              ++ [Clear; Update (map CStr expected_columns :: written)]
         /\ Forall (fun r => length r = 9
                             /\ forallb (fun v => negb (isna v)) r = true)
                   written).
Proof.
  unfold save_changes, try_except, bind, lift.
  destruct (save_df_of any_df) as [[cols rs]|[e|]];
    [|left; split; reflexivity ..].
  destruct (str_truthy search_query); [left; split; reflexivity|].
  right. exists (map (canonical_row cols) rs).
  rewrite update_values_of_rows.
  unfold sheet_clear, sheet_update, st_success, show, st_rerun, raise.
  cbn [snd sheet sheet_calls page geo_queries]. rewrite overlay_nil.
  split; [reflexivity|]. split; [now rewrite <- app_assoc|].
  apply Forall_forall. intros r Hr. apply in_map_iff in Hr.
  destruct Hr as [r0 [<- _]]. apply canonical_row_clean.
Qed.

(** X8: the reordering done before a write changes nothing in what it
    has produced: applied to the table made of its own output rows under
    the expected columns, it gives the same header and rows again. *)
Theorem update_values_idempotent (df : DataFrame) :
  update_values_of (mkDF expected_columns (tl (update_values_of df)))
  = update_values_of df.
Proof.
  destruct df as [cols rs]. rewrite (update_values_of_rows cols rs).
  cbn [tl]. rewrite update_values_of_rows. f_equal.
  rewrite map_map. apply map_ext. intros r.
  destruct (canonical_row_clean cols r) as [Hlen Hna].
  now apply canonical_row_unchanged.
Qed.

Lemma filter_none_flagged (rs : list (list cell)) :
  forallb (fun r => negb (deletion_flag r)) rs = true ->
  filter (fun r => negb (deletion_flag r)) rs = rs.
Proof.
  induction rs as [|r rs IH]; cbn; [reflexivity|].
  intros H. apply andb_true_iff in H. destruct H as [Hr Hrs].
  rewrite Hr. f_equal. now apply IH.
Qed.

Lemma load_data_rows_length (data : list record) :
  length (rows (load_data data))
  = if no_labels data then 0 else length data.
Proof.
  rewrite load_data_frame, df_empty_no_labels. cbv zeta.
  destruct (no_labels data); [reflexivity|].
  cbn [rows DataFrame_of_records]. now rewrite !length_map.
Qed.

(** X9: load, open for editing with no search words, save what the
    editor hands back with no box ticked: when no column of the loaded
    table is named 削除, the copy is built, and whatever cells the editor
    hands back the save goes through and leaves in the sheet the header
    of the nine expected columns followed by exactly one row per record
    (none when no record has a label), each of nine cells none of which
    is a missing value.  No record is lost and no unknown column is
    written. *)
Theorem untouched_save_keeps_every_record
    (float_repr : float -> string)
    (re_compile_ignorecase : string -> option (string -> bool))
    (data : list record) (edit_df edited_df : DataFrame) (w : World) :
  make_edit_df float_repr re_compile_ignorecase (load_data data) ""
  = Returned edit_df ->
  data_editor_returns edit_df edited_df = true ->
  forallb (fun r => negb (deletion_flag r)) (rows edited_df) = true ->
  exists body : list (list cell),
    save_changes "" edited_df w
    = (Raised RerunException,
       mkWorld (map CStr expected_columns :: body)
               (sheet_calls w
                ++ [Clear; Update (map CStr expected_columns :: body)])
               (page w ++ [Success saved_message])
               (geo_queries w))
    /\ length body = (if no_labels data then 0 else length data)
    /\ Forall (fun r => length r = 9
                        /\ forallb (fun v => negb (isna v)) r = true) body.
Proof.
  intros Hview Hed Hnone.
  pose proof (make_edit_df_columns _ _ _ _ _ Hview) as Hc.
  destruct (data_editor_rows _ _ _ Hc Hed) as [Hc' Hr].
  exists (map (canonical_row (columns (load_data data))) (kept_rows edited_df)).
  split; [now apply save_changes_unfiltered|]. split.
  - unfold kept_rows. rewrite (filter_none_flagged _ Hnone), !length_map.
    unfold data_editor_returns in Hed.
    apply andb_true_iff in Hed. destruct Hed as [Hed _].
    apply andb_true_iff in Hed. destruct Hed as [_ Hlen].
    apply Nat.eqb_eq in Hlen. rewrite <- Hlen.
    rewrite make_edit_df_cases in Hview.
    destruct (label_in "削除" (columns (load_data data))); [discriminate|].
    cbn [str_truthy] in Hview. injection Hview as <-. cbn [rows].
    rewrite length_map. apply load_data_rows_length.
  - apply Forall_forall. intros r Hin. apply in_map_iff in Hin.
    destruct Hin as [r0 [<- _]]. apply canonical_row_clean.
Qed.

Lemma untouched_save_keeps_every_record_witness :
  exists body : list (list cell),
    save_changes ""
      (mkDF ["削除"; "店名"; "備考"; "緯度"; "経度"; "住所"]
            [[CBool false; CStr "B"; CStr "x"; CStr ""; CStr ""; CStr "立川"]])
      sample_world
    = (Raised RerunException,
       mkWorld (map CStr expected_columns :: body)
               (sheet_calls sample_world
                ++ [Clear; Update (map CStr expected_columns :: body)])
               (page sample_world ++ [Success saved_message])
               (geo_queries sample_world))
    /\ length body = 1
    /\ Forall (fun r => length r = 9
                        /\ forallb (fun v => negb (isna v)) r = true) body.
Proof.
  apply (untouched_save_keeps_every_record sample_float_repr sample_matcher
           drifted_records
           (mkDF ["削除"; "店名"; "備考"; "緯度"; "経度"; "住所"]
                 [[CBool false; CStr "A"; CStr "x"; CNone; CNone; CNone]]));
    reflexivity.
Defined.

Lemma kept_rows_all_flagged (rs : list (list cell)) :
  forallb deletion_flag rs = true ->
  filter (fun r => negb (deletion_flag r)) rs = [].
Proof.
  induction rs as [|r rs IH]; cbn; [reflexivity|].
  intros H. apply andb_true_iff in H. destruct H as [Hr Hrs].
  rewrite Hr. cbn. now apply IH.
Qed.

(** X10: ticking every row and saving with no search words empties the
    table but keeps its header: the sheet is left with the one row of the
    nine expected labels. *)
Theorem delete_all_leaves_header
    (float_repr : float -> string)
    (re_compile_ignorecase : string -> option (string -> bool))
    (df edit_df edited_df : DataFrame) (w : World) :
  make_edit_df float_repr re_compile_ignorecase df "" = Returned edit_df ->
  data_editor_returns edit_df edited_df = true ->
  forallb deletion_flag (rows edited_df) = true ->
  sheet (snd (save_changes "" edited_df w)) = [map CStr expected_columns].
Proof.
  intros Hview Hed Hall.
  pose proof (make_edit_df_columns _ _ _ _ _ Hview) as Hc.
  destruct (data_editor_rows _ _ _ Hc Hed) as [Hc' Hr].
  rewrite (save_changes_unfiltered _ _ w Hc' Hr). cbn [snd sheet].
  unfold kept_rows. now rewrite kept_rows_all_flagged.
Qed.

Lemma delete_all_leaves_header_witness :
  sheet (snd (save_changes ""
                (mkDF ("削除" :: expected_columns)
                      (map (cons (CBool true)) (rows (load_data sample_records))))
                sample_world))
  = [map CStr expected_columns].
Proof.
  apply (delete_all_leaves_header sample_float_repr sample_matcher
           (load_data sample_records)
           (mkDF ("削除" :: expected_columns)
                 (map (cons (CBool false)) (rows (load_data sample_records)))));
    reflexivity.
Defined.

(* ===================================================================== *)
(** ** More on the address lookup *)
(* ===================================================================== *)

Lemma prefix_app (sub p s : string) :
  prefix sub p = true -> prefix sub (p ++ s) = true.
Proof.
  revert p. induction sub as [|a sub IH]; intros p H.
  - now destruct (p ++ s)%string.
  - destruct p as [|b p]; [discriminate H|].
    cbn in *. destruct (ascii_dec a b); [now apply IH | discriminate H].
Qed.

Lemma str_in_here (sub s : string) :
  prefix sub s = true -> str_in sub s = true.
Proof. intros H. destruct s; cbn [str_in]; now rewrite H. Qed.

Lemma str_in_app_l (sub p s : string) :
  str_in sub p = true -> str_in sub (p ++ s) = true.
Proof.
  induction p as [|c p IH]; intros H.
  - destruct sub; [|discriminate H]. now destruct s.
  - cbn [append str_in] in *.
    destruct (prefix sub (String c p)) eqn:E.
    + pose proof (prefix_app sub (String c p) s E) as Hp.
      cbn [append] in Hp. now rewrite Hp.
    + rewrite (IH H). now destruct (prefix sub (String c (p ++ s))).
Qed.

Lemma str_in_app_r (sub p s : string) :
  str_in sub s = true -> str_in sub (p ++ s) = true.
Proof.
  intros H. induction p as [|c p IH]; [exact H|].
  cbn [append str_in]. rewrite IH.
  now destruct (prefix sub (String c (p ++ s))).
Qed.

(** X11: the search words of the second try always contain both 立川 and
    東京都, whatever the address; so putting the names in front twice
    changes nothing more: words that are already qualified are left as
    they are. *)
Theorem search_word_of_idempotent (address : string) :
  str_in "立川" (search_word_of address) = true
  /\ str_in "東京都" (search_word_of address) = true
  /\ search_word_of (search_word_of address) = search_word_of address.
Proof.
  assert (H : str_in "立川" (search_word_of address) = true
              /\ str_in "東京都" (search_word_of address) = true).
  { unfold search_word_of.
    destruct (str_in "立川" address) eqn:Ec; cbn [negb].
    - destruct (str_in "東京都" address) eqn:Er; cbn [negb].
      + now split.
      + split; [now apply str_in_app_r | now apply str_in_app_l].
    - split; now apply str_in_app_l. }
  destruct H as [Hc Hr]. split; [exact Hc|]. split; [exact Hr|].
  unfold search_word_of at 1. now rewrite Hc, Hr.
Qed.

Lemma queries_sent_bound (g : Geocoder) (a : string) :
  length (queries_sent g a) <= 2
  /\ (exists rest, queries_sent g a = a :: rest)
  /\ (forall q, In q (queries_sent g a) ->
                q = a \/ q = ("東京都立川市 " ++ a)%string
                \/ q = ("東京都 " ++ a)%string).
Proof.
  unfold queries_sent, retry_query.
  destruct (g a); cbn.
  - destruct (str_in "立川" a); cbn.
    + destruct (str_in "東京都" a); cbn.
      * split; [lia|]. split; [eexists; reflexivity|]. intuition.
      * split; [lia|]. split; [eexists; reflexivity|]. intuition.
    + split; [lia|]. split; [eexists; reflexivity|]. intuition.
  - split; [lia|]. split; [eexists; reflexivity|]. intuition.
  - split; [lia|]. split; [eexists; reflexivity|]. intuition.
Qed.

Lemma register_unnamed (geopy : option Geocoder) (timestamp : string)
    (f : Form) (w : World) :
  name f = "" ->
  register geopy timestamp f w
  = (Returned tt, add_events w [Warning "店名は必須です！"]).
Proof.
  intros H. unfold register. rewrite H. reflexivity.
Qed.

(** X12: one registration sends at most two queries to the geocoder,
    whatever the form and the replies; the first, when there is one, is
    the address as typed, and any other is the address with 東京都立川市
    or 東京都 and a space in front. *)
Theorem register_sends_few_queries (geopy : option Geocoder)
    (timestamp : string) (f : Form) (w : World) :
  exists qs : list string,
    geo_queries (snd (register geopy timestamp f w)) = geo_queries w ++ qs
    /\ length qs <= 2
    /\ (qs = [] \/ exists rest, qs = address f :: rest)
    /\ (forall q, In q qs ->
                  q = address f
                  \/ q = ("東京都立川市 " ++ address f)%string
                  \/ q = ("東京都 " ++ address f)%string).
Proof.
  destruct (String.eqb_spec (name f) "") as [Hn|Hn].
  - exists []. rewrite (register_unnamed _ _ _ _ Hn). cbn.
    rewrite app_nil_r. split; [reflexivity|]. split; [lia|].
    split; [now left | contradiction].
  - rewrite (register_run geopy timestamp f w Hn). cbv zeta.
    cbn [snd geo_queries]. eexists. split; [reflexivity|].
    destruct geopy as [g|].
    + rewrite sent_located.
      destruct (negb (truthy (CStr (lat_input f))) && str_truthy (address f)).
      * destruct (queries_sent_bound g (address f)) as [Hlen [Hfirst Hall]].
        split; [exact Hlen|]. split; [now right | exact Hall].
      * cbn. split; [lia|]. split; [now left | contradiction].
    + cbn. split; [lia|]. split; [now left | contradiction].
Qed.

(* ===================================================================== *)
(** ** More on the registration *)
(* ===================================================================== *)

(** X13: a registration never raises and never touches the rows already
    in the sheet: either it calls nothing on the sheet, or it makes one
    call, [append_row], with a row of nine cells that ends up under the
    rows that were there. *)
Theorem register_appends_at_most_one_row (geopy : option Geocoder)
    (timestamp : string) (f : Form) (w : World) :
  fst (register geopy timestamp f w) = Returned tt
  /\ ((sheet (snd (register geopy timestamp f w)) = sheet w
       /\ sheet_calls (snd (register geopy timestamp f w)) = sheet_calls w)
      \/ exists row : list cell,
           length row = 9
           /\ sheet (snd (register geopy timestamp f w)) = sheet w ++ [row]
           /\ sheet_calls (snd (register geopy timestamp f w))
              = sheet_calls w ++ [AppendRow row]).
Proof.
  destruct (String.eqb_spec (name f) "") as [Hn|Hn].
  - rewrite (register_unnamed _ _ _ _ Hn). cbn.
    split; [reflexivity|]. left. now split.
  - rewrite (register_run geopy timestamp f w Hn). cbv zeta.
    cbn [fst snd sheet sheet_calls]. split; [reflexivity|].
    right. eexists. split; [|split; reflexivity]. reflexivity.
Qed.

Lemma or_blank_str (s : string) : or_blank (CStr s) = CStr s.
Proof. now destruct s. Qed.

(** X14: a coordinate that is zero is not stored.  When the lookup ends
    on a location whose latitude is 0.0, the row appended has the empty
    string for latitude (line 307 takes the float zero for no value); the
    longitude is the location's. *)
Theorem zero_latitude_is_blanked (g : Geocoder) (timestamp : string)
    (f : Form) (w : World) (loc : Location) :
  name f <> "" ->
  lat_input f = "" ->
  address f <> "" ->
  lookup_reply g (address f) = Found loc ->
  PrimFloat.eqb (latitude loc) 0 = true ->
  sheet (snd (register (Some g) timestamp f w))
  = sheet w ++ [new_row f timestamp (CStr "")
                        (or_blank (CFloat (longitude loc)))].
Proof.
  intros Hname Hlat Haddr Hloc Hzero.
  rewrite (register_run (Some g) timestamp f w Hname). cbv zeta.
  cbn [snd sheet]. unfold located. rewrite Hlat.
  cbn [truthy str_truthy negb andb].
  apply str_truthy_true in Haddr. rewrite Haddr, Hloc.
  cbn [new_lat new_lon]. unfold or_blank at 1. cbn [truthy].
  now rewrite Hzero.
Qed.

Lemma zero_latitude_is_blanked_witness :
  sheet (snd (register (Some on_the_equator) "2024-01-01 10:00"
                (mkForm "赤道食堂" Washoku Kitaguchi 3 "" "赤道" "" "")
                no_world))
  = [[CStr "赤道食堂"; CStr "和食"; CStr "北口"; CInt 3; CStr "";
      CStr "赤道"; CStr "2024-01-01 10:00"; CStr ""; CFloat 139.25]].
Proof.
  assert (H1 : "赤道食堂" <> "") by discriminate.
  assert (H2 : "赤道" <> "") by discriminate.
  exact (zero_latitude_is_blanked on_the_equator "2024-01-01 10:00"
           (mkForm "赤道食堂" Washoku Kitaguchi 3 "" "赤道" "" "")
           no_world (mkLocation "赤道" 0 139.25) H1 eq_refl H2 eq_refl eq_refl).
Defined.

(** X15: a typed longitude is replaced only by a found location.  With a
    name, no latitude typed and a lookup that ends on no location (the
    address is empty, nothing is found, or the service fails), the row
    appended has an empty latitude and the longitude exactly as typed. *)
Theorem typed_longitude_kept (g : Geocoder) (timestamp : string) (f : Form)
    (w : World) :
  name f <> "" ->
  lat_input f = "" ->
  (address f = "" \/ forall loc, lookup_reply g (address f) <> Found loc) ->
  sheet (snd (register (Some g) timestamp f w))
  = sheet w ++ [new_row f timestamp (CStr "") (CStr (lon_input f))].
Proof.
  intros Hname Hlat Hnone.
  rewrite (register_run (Some g) timestamp f w Hname). cbv zeta.
  cbn [snd sheet]. unfold located. rewrite Hlat.
  cbn [truthy str_truthy negb andb].
  destruct (str_truthy (address f)) eqn:Ea.
  - destruct Hnone as [He | Hnone]; [rewrite He in Ea; discriminate|].
    destruct (lookup_reply g (address f)) as [|loc|e] eqn:El;
      cbn [new_lat new_lon]; rewrite ?or_blank_str; try reflexivity.
    exfalso. now apply (Hnone loc).
  - cbn [new_lat new_lon]. now rewrite !or_blank_str.
Qed.

Lemma typed_longitude_kept_witness :
  sheet (snd (register (Some out_of_service) "2024-01-01 10:00"
                (mkForm "立川食堂" Washoku Kitaguchi 3 "" "立川駅" "" "139.4")
                no_world))
  = [[CStr "立川食堂"; CStr "和食"; CStr "北口"; CInt 3; CStr "";
      CStr "立川駅"; CStr "2024-01-01 10:00"; CStr ""; CStr "139.4"]].
Proof.
  assert (H1 : "立川食堂" <> "") by discriminate.
  apply (typed_longitude_kept out_of_service "2024-01-01 10:00"
           (mkForm "立川食堂" Washoku Kitaguchi 3 "" "立川駅" "" "139.4")
           no_world H1 eq_refl).
  right. intros loc. discriminate.
Defined.

(** X16: without the geocoding library the form still registers: for
    every form with a name no query is sent, nothing about the location
    is shown, and the row appended holds the two coordinate fields
    exactly as typed. *)
Theorem register_without_geopy (timestamp : string) (f : Form) (w : World) :
  name f <> "" ->
  register None timestamp f w
  = (Returned tt,
     mkWorld (sheet w ++ [new_row f timestamp (CStr (lat_input f))
                                  (CStr (lon_input f))])
             (sheet_calls w
              ++ [AppendRow (new_row f timestamp (CStr (lat_input f))
                                     (CStr (lon_input f)))])
             (page w ++ [Success ("「" ++ name f ++ "」を登録しました！")%string;
                         Balloons])
             (geo_queries w)).
Proof.
  intros Hname. rewrite (register_run None timestamp f w Hname). cbv zeta.
  cbn [located new_lat new_lon shown sent].
  now rewrite !or_blank_str, app_nil_r.
Qed.

Lemma register_without_geopy_witness :
  geo_queries (snd (register None "2024-01-01 10:00"
                      (mkForm "立川食堂" Washoku Kitaguchi 3 "" "立川駅" "" "139.4")
                      no_world))
  = [].
Proof.
  assert (H1 : "立川食堂" <> "") by discriminate.
  rewrite (register_without_geopy "2024-01-01 10:00"
             (mkForm "立川食堂" Washoku Kitaguchi 3 "" "立川駅" "" "139.4")
             no_world H1).
  reflexivity.
Defined.

Lemma lookup_reply_found (g : Geocoder) (a : string) (loc : Location) :
  lookup_reply g a = Found loc -> exists q, g q = Found loc.
Proof.
  unfold lookup_reply. destruct (g a) eqn:E.
  - destruct (retry_query a) as [q|]; [|discriminate].
    intros H. now exists q.
  - intros H. exists a. congruence.
  - discriminate.
Qed.

Lemma or_blank_float_filled (x : float) :
  is_nan x = false -> isna (or_blank (CFloat x)) = false.
Proof.
  intros H. unfold or_blank. now destruct (truthy (CFloat x)).
Qed.

(** X17: what the form appends, a later save leaves as it is.  For every
    form with a name, when the geocoder never answers with a coordinate
    that is NaN, the appended row has nine cells, none a missing value,
    so the reordering done before a write gives the same row back. *)
Theorem registered_row_is_canonical (geopy : option Geocoder)
    (timestamp : string) (f : Form) (w : World) :
  name f <> "" ->
  (forall g, geopy = Some g ->
             forall q loc, g q = Found loc ->
                           is_nan (latitude loc) = false
                           /\ is_nan (longitude loc) = false) ->
  exists row : list cell,
    sheet (snd (register geopy timestamp f w)) = sheet w ++ [row]
    /\ canonical_row expected_columns row = row.
Proof.
  intros Hname Hgeo.
  rewrite (register_run geopy timestamp f w Hname). cbv zeta.
  cbn [snd sheet]. eexists. split; [reflexivity|].
  apply canonical_row_unchanged; [reflexivity|].
  unfold new_row. cbn [forallb isna negb andb].
  assert (Hc : isna (or_blank (new_lat (located geopy (address f)
                                          (CStr (lat_input f))
                                          (CStr (lon_input f))))) = false
               /\ isna (or_blank (new_lon (located geopy (address f)
                                             (CStr (lat_input f))
                                             (CStr (lon_input f))))) = false).
  { unfold located. destruct geopy as [g|].
    - destruct (negb (truthy (CStr (lat_input f))) && str_truthy (address f)).
      + destruct (lookup_reply g (address f)) as [|loc|e] eqn:El;
          cbn [new_lat new_lon]; rewrite ?or_blank_str; try (now split).
        destruct (lookup_reply_found g _ _ El) as [q Hq].
        destruct (Hgeo g eq_refl q loc Hq) as [Hla Hlo].
        split; now apply or_blank_float_filled.
      + cbn [new_lat new_lon]. now rewrite !or_blank_str.
    - cbn [new_lat new_lon]. now rewrite !or_blank_str. }
  destruct Hc as [-> ->]. reflexivity.
Qed.

Lemma registered_row_is_canonical_witness :
  exists row : list cell,
    sheet (snd (register (Some station_only) "2024-01-01 10:00"
                  (mkForm "立川食堂" Washoku Kitaguchi 3 "" "立川駅" "" "")
                  no_world))
    = sheet no_world ++ [row]
    /\ canonical_row expected_columns row = row.
Proof.
  assert (H1 : "立川食堂" <> "") by discriminate.
  apply (registered_row_is_canonical (Some station_only) "2024-01-01 10:00"
           (mkForm "立川食堂" Washoku Kitaguchi 3 "" "立川駅" "" "")
           no_world H1).
  intros g Hg q loc Hq. injection Hg as <-. unfold station_only in Hq.
  destruct (String.eqb q "立川駅"); [|discriminate Hq].
  injection Hq as <-. split; reflexivity.
Defined.

(* ===================================================================== *)
(** ** The login *)
(* ===================================================================== *)

(** X18: the session is authenticated after the login block exactly when
    it was before or the text typed equals the configured password, a
    string; with no [app_password] in the secrets, or one that is not a
    string, no text gets in.  The script goes on to the page only for a
    session that was authenticated already (a right password restarts
    it), and the wrong-password error is shown exactly when a non-empty
    text was typed and turned down. *)
Theorem login_authenticates_iff (authenticated : bool)
    (app_password : option cell) (password : string) :
  (snd (fst (login authenticated app_password password)) = true
   <-> authenticated = true \/ app_password = Some (CStr password))
  /\ (fst (fst (login authenticated app_password password)) = Proceed
      <-> authenticated = true)
  /\ (snd (login authenticated app_password password)
      = [Error wrong_password_message]
      <-> authenticated = false /\ app_password <> Some (CStr password)
          /\ password <> "")
  /\ (snd (login authenticated app_password password) = []
      \/ snd (login authenticated app_password password)
         = [Error wrong_password_message]).
Proof.
  unfold login.
  destruct authenticated; cbn [negb].
  { cbn. intuition congruence. }
  destruct app_password as [[s|z|x|b|]|]; cbn [password_equals].
  1: destruct (String.eqb_spec password s) as [Heq|Hne]; [subst s|].
  all: destruct password as [|c p]; cbn; intuition congruence.
Qed.

(* ===================================================================== *)
(** ** The connection and the run *)
(* ===================================================================== *)

Section AppProperties.

Variable Client : Type.
Variable Info : Type.
Variable json_loads : string -> option (option Info).
Variable authorize : Info -> string + Client.
Variable open_sheet1 : Client -> option string.
Variable get_all_records : list (list cell) -> string + list record.
Variable show_map : DataFrame -> string + list ui_event.
Variable float_repr : float -> string.
Variable re_compile_ignorecase : string -> option (string -> bool).

Lemma connect_with_connected (creds_dict : option Info) (client : Client)
    (evs : list ui_event) :
  connect_with Client Info authorize creds_dict = (Connected Client client, evs) ->
  evs = [] /\ exists d, creds_dict = Some d /\ authorize d = inr client.
Proof.
  unfold connect_with, authorize_or_stop.
  destruct creds_dict as [d|]; [|discriminate].
  destruct (authorize d) as [e|c] eqn:E; [discriminate|].
  intros H. injection H as <- <-. split; [reflexivity|]. now exists d.
Qed.

Lemma connect_with_silent (creds_dict : option Info) :
  connect_with Client Info authorize creds_dict = (ConnectionStopped Client, [])
  <-> creds_dict = None.
Proof.
  unfold connect_with, authorize_or_stop.
  destruct creds_dict as [d|]; [|tauto].
  destruct (authorize d); split; discriminate.
Qed.

(** X19: [get_connection] returns a client only by authorising the
    service-account info of the secrets file: when it returns one, it has
    shown nothing, the secrets have a [gcp_service_account] table with an
    [info] entry that is a dict or a string that parses to one, and the
    client is what the authorisation of that info gave. *)
Theorem get_connection_sound (secrets : Secrets Info) (client : Client)
    (evs : list ui_event) :
  get_connection Client Info json_loads authorize secrets
  = (Connected Client client, evs) ->
  evs = []
  /\ exists table d,
       gcp_service_account Info secrets = Some table
       /\ authorize d = inr client
       /\ (table_get table "info" = Some (SecretDict Info d)
           \/ exists s, table_get table "info" = Some (SecretStr Info s)
                        /\ json_loads s = Some (Some d)).
Proof.
  unfold get_connection.
  destruct (gcp_service_account Info secrets) as [table|]; [|discriminate].
  destruct (table_get table "info") as [[d|s|]|] eqn:Ei; try discriminate.
  - intros H. apply connect_with_connected in H.
    destruct H as [-> [d' [Hd Ha]]]. injection Hd as <-.
    split; [reflexivity|]. exists table, d. auto.
  - destruct (json_loads s) as [creds_dict|] eqn:Ej; [|discriminate].
    intros H. apply connect_with_connected in H.
    destruct H as [-> [d [-> Ha]]].
    split; [reflexivity|]. exists table, d.
    split; [reflexivity|]. split; [exact Ha|]. right. now exists s.
Qed.

(** X20: [get_connection] stops the script without a word in two cases
    only: the [info] entry is neither a dict nor a string, or it is a
    string that parses to [null].  Every other way of not returning a
    client shows an error first. *)
Theorem get_connection_silent_stop (secrets : Secrets Info) :
  get_connection Client Info json_loads authorize secrets
  = (ConnectionStopped Client, [])
  <-> exists table,
        gcp_service_account Info secrets = Some table
        /\ (table_get table "info" = Some (SecretOther Info)
            \/ exists s, table_get table "info" = Some (SecretStr Info s)
                         /\ json_loads s = Some None).
Proof.
  unfold get_connection.
  destruct (gcp_service_account Info secrets) as [table|].
  - destruct (table_get table "info") as [[d|s|]|] eqn:Ei.
    + rewrite connect_with_silent. split; [discriminate|].
      intros [t [Ht [H | [s [H _]]]]]; injection Ht as <-;
        rewrite Ei in H; discriminate.
    + destruct (json_loads s) as [creds_dict|] eqn:Ej.
      * rewrite connect_with_silent. split.
        -- intros ->. exists table. split; [reflexivity|]. right. now exists s.
        -- intros [t [Ht [H | [s' [H Hj]]]]]; injection Ht as <-;
             rewrite Ei in H; [discriminate|].
           injection H as <-. rewrite Ej in Hj. now injection Hj.
      * split; [discriminate|].
        intros [t [Ht [H | [s' [H Hj]]]]]; injection Ht as <-;
          rewrite Ei in H; [discriminate|].
        injection H as <-. rewrite Ej in Hj. discriminate.
    + split; [|reflexivity]. intros _. exists table. auto.
    + split; [discriminate|].
      intros [t [Ht [H | [s [H _]]]]]; injection Ht as <-;
        rewrite Ei in H; discriminate.
  - split; [discriminate|]. intros [t [Ht _]]. discriminate.
Qed.

Lemma tab2_effects (env : Env Info) (ui : Widgets) (w : World) :
  sheet_calls (snd (tab2 Info env ui w)) <> sheet_calls w
  \/ geo_queries (snd (tab2 Info env ui w)) <> geo_queries w ->
  ui_submitted ui = true.
Proof.
  unfold tab2. destruct (ui_submitted ui); [reflexivity|].
  cbn. intros [H | H]; now contradiction H.
Qed.

Lemma list_editor_effects (env : Env Info) (ui : Widgets) (df : DataFrame)
    (w : World) :
  sheet_calls (snd (list_editor Info float_repr re_compile_ignorecase env ui df w))
  <> sheet_calls w
  \/ geo_queries (snd (list_editor Info float_repr re_compile_ignorecase env ui df w))
     <> geo_queries w ->
  ui_reload ui = false
  /\ (exists edit_df,
         make_edit_df float_repr re_compile_ignorecase df (ui_search_query ui)
         = Returned edit_df)
  /\ (ui_save ui = true \/ ui_submitted ui = true).
Proof.
  unfold list_editor. destruct (ui_reload ui).
  - cbn. intros [H | H]; now contradiction H.
  - destruct (make_edit_df float_repr re_compile_ignorecase df (ui_search_query ui))
      as [edit_df|[e|]].
    + intros H. split; [reflexivity|]. split; [now exists edit_df|].
      destruct (ui_save ui); [now left|]. right.
      now apply (tab2_effects env ui w).
    + cbn. intros [H | H]; now contradiction H.
    + cbn. intros [H | H]; now contradiction H.
Qed.

(** X21: nothing is called on the sheet and nothing is asked of the
    geocoder unless the session was authenticated when the run began, the
    connection was made, the sheet opened and read, the map drawn without
    an exception, the reload button left alone, the editable copy built,
    and the save button or the form's button pressed.  In particular a
    run that stops at the login, right password or not, leaves the sheet
    alone. *)
Theorem effects_need_login_and_load (authenticated : bool) (env : Env Info)
    (ui : Widgets) (w : World) :
  let w' := snd (main Client Info json_loads authorize open_sheet1
                   get_all_records show_map float_repr re_compile_ignorecase
                   authenticated env ui w) in
  sheet_calls w' <> sheet_calls w \/ geo_queries w' <> geo_queries w ->
  authenticated = true
  /\ (exists client data shown_by_map edit_df,
         fst (get_connection Client Info json_loads authorize (secrets Info env))
         = Connected Client client
         /\ open_sheet1 client = None
         /\ get_all_records (sheet w) = inr data
         /\ show_map (load_data data) = inr shown_by_map
         /\ make_edit_df float_repr re_compile_ignorecase (load_data data)
                         (ui_search_query ui) = Returned edit_df)
  /\ ui_reload ui = false
  /\ (ui_save ui = true \/ ui_submitted ui = true).
Proof.
  cbv zeta. unfold main, login.
  destruct authenticated; cbn [negb].
  - unfold load_sheet.
    destruct (get_connection Client Info json_loads authorize (secrets Info env))
      as [[client|] evs0] eqn:Ec.
    + destruct (open_sheet1 client) as [e|] eqn:Eo.
      * cbn. intros [H | H]; now contradiction H.
      * destruct (get_all_records (sheet w)) as [e|data] eqn:Er.
        -- cbn. intros [H | H]; now contradiction H.
        -- destruct (show_map (load_data data)) as [e|evs] eqn:Em.
           ++ cbn. intros [H | H]; now contradiction H.
           ++ cbn [snd]. intros H.
              destruct (list_editor_effects env ui (load_data data)
                          (add_events w evs) H) as [Hre [[edit_df Hed] Hbtn]].
              split; [reflexivity|]. split; [|now split].
              exists client, data, evs, edit_df. cbn [fst]. auto.
    + cbn. intros [H | H]; now contradiction H.
  - destruct (match app_password Info (secrets Info env) with
              | Some v => password_equals (ui_password ui) v
              | None => false
              end); cbn; intros [H | H]; now contradiction H.
Qed.

(** X22: a sheet one of whose records has a label 削除 cannot be changed
    through the page: whatever the session, the widgets and the buttons
    pressed, no run makes a call on it, and no run gets to its last
    line. *)
Theorem flag_named_column_locks_sheet (authenticated : bool) (env : Env Info)
    (ui : Widgets) (w : World) (data : list record) (d : record) (v : cell) :
  get_all_records (sheet w) = inr data ->
  In d data ->
  dict_get d "削除" = Some v ->
  let r := main Client Info json_loads authorize open_sheet1
                get_all_records show_map float_repr re_compile_ignorecase
                authenticated env ui w in
  sheet (snd r) = sheet w
  /\ sheet_calls (snd r) = sheet_calls w
  /\ fst (fst r) <> Finished.
Proof.
  intros Hread Hin Hget. cbv zeta. unfold main, login.
  destruct authenticated; cbn [negb].
  - unfold load_sheet.
    destruct (get_connection Client Info json_loads authorize (secrets Info env))
      as [[client|] evs0].
    + destruct (open_sheet1 client) as [e|].
      * cbn. repeat split; discriminate.
      * rewrite Hread.
        destruct (show_map (load_data data)) as [e|evs].
        -- cbn. repeat split; discriminate.
        -- unfold list_editor. destruct (ui_reload ui).
           ++ cbn. repeat split; discriminate.
           ++ rewrite (make_edit_df_raises float_repr re_compile_ignorecase
                         (load_data data) (ui_search_query ui)
                         (load_data_keeps_label data d "削除" v Hin Hget)).
              cbn. repeat split; discriminate.
    + cbn. repeat split; discriminate.
  - destruct (match app_password Info (secrets Info env) with
              | Some v => password_equals (ui_password ui) v
              | None => false
              end); cbn; repeat split; discriminate.
Qed.

End AppProperties.

Lemma get_connection_sound_witness :
  get_connection unit unit sample_json_loads sample_authorize sample_secrets
  = (Connected unit tt, [])
  /\ gcp_service_account unit sample_secrets
     = Some [("info", SecretDict unit tt)].
Proof.
  assert (H : get_connection unit unit sample_json_loads sample_authorize
                sample_secrets = (Connected unit tt, [])) by reflexivity.
  split; [exact H|].
  destruct (get_connection_sound unit unit sample_json_loads sample_authorize
              sample_secrets tt [] H) as [_ [table [d [Ht _]]]].
  reflexivity.
Defined.

Lemma effects_need_login_and_load_witness :
  sheet_calls (snd (main unit unit sample_json_loads sample_authorize
                      sample_open sample_read sample_show_map
                      sample_float_repr sample_matcher
                      true sample_env sample_widgets sample_world))
  <> sheet_calls sample_world
  /\ ui_reload sample_widgets = false.
Proof.
  assert (H : sheet_calls (snd (main unit unit sample_json_loads
                                  sample_authorize sample_open sample_read
                                  sample_show_map sample_float_repr
                                  sample_matcher true sample_env
                                  sample_widgets sample_world))
              <> sheet_calls sample_world) by (vm_compute; discriminate).
  split; [exact H|].
  exact (proj1 (proj2 (proj2 (effects_need_login_and_load unit unit
                                sample_json_loads sample_authorize sample_open
                                sample_read sample_show_map sample_float_repr
                                sample_matcher true sample_env sample_widgets
                                sample_world (or_introl H))))).
Defined.

Lemma flag_named_column_locks_sheet_witness :
  sheet_calls (snd (main unit unit sample_json_loads sample_authorize
                      sample_open flag_named_read sample_show_map
                      sample_float_repr sample_matcher
                      true sample_env sample_widgets sample_world))
  = sheet_calls sample_world.
Proof.
  apply (flag_named_column_locks_sheet unit unit sample_json_loads
           sample_authorize sample_open flag_named_read sample_show_map
           sample_float_repr sample_matcher true sample_env sample_widgets
           sample_world flag_named_records
           [("店名", CStr "A"); ("削除", CStr "x")] (CStr "x")).
  - reflexivity.
  - left. reflexivity.
  - reflexivity.
Defined.
